(** * A shallow embedding of [src/treemap.ts]

    The treemap plugin reshapes the rows of a host-supplied result set into
    treemap points, builds a Highcharts configuration from them and from the
    host's visual properties, and relays point clicks to the host.

    Layout of this development:
    - [JS]: the fragment of JavaScript the plugin relies on (numbers,
      values, [parseFloat], [toString], [Array.prototype.sort], string
      [replace]);
    - [Numeral]: the part of the third-party [numeral] formatter that
      [numberFormatter] reaches;
    - [SDK]: the data types of the host SDK that the plugin reads or builds;
    - [Treemap]: the functions of [src/treemap.ts], in an effect monad that
      threads the module-level variables and records console output, emitted
      host events and calls to [Highcharts.chart];
    - the theorems. *)

From Stdlib Require Import ZArith List String Ascii Bool Lia.
From Stdlib Require Import Sorted Permutation DecimalString.
Import ListNotations.
Local Open Scope string_scope.
Local Open Scope Z_scope.

(* ------------------------------------------------------------------ *)
(** * JavaScript fragment *)
(* ------------------------------------------------------------------ *)

Module JS.

(** JavaScript numbers.  A finite number [Fin m e] stands for [m * 10^e]:
    every value the host sends is a decimal literal, and every binary64
    value is a finite decimal.  The model keeps decimals exact, so the
    rounding of binary64 arithmetic is not represented, and [-0] is
    identified with [0]. *)
Inductive number : Type :=
| NaN
| PosInf
| NegInf
| Fin (m e : Z).

Definition isNaN (x : number) : bool :=
  match x with NaN => true | _ => false end.

(** [scale m e lo] is the integer [m * 10^(e - lo)], for [lo <= e]. *)
Definition scale (m e lo : Z) : Z := m * 10 ^ (e - lo).

(** [a - b]. *)
Definition sub (a b : number) : number :=
  match a, b with
  | NaN, _ | _, NaN => NaN
  | PosInf, PosInf => NaN
  | NegInf, NegInf => NaN
  | PosInf, _ => PosInf
  | NegInf, _ => NegInf
  | Fin _ _, PosInf => NegInf
  | Fin _ _, NegInf => PosInf
  | Fin m1 e1, Fin m2 e2 =>
      let lo := Z.min e1 e2 in
      Fin (scale m1 e1 lo - scale m2 e2 lo) lo
  end.

(** [a <= b], false as soon as one side is [NaN]. *)
Definition leb (a b : number) : bool :=
  match a, b with
  | NaN, _ | _, NaN => false
  | NegInf, _ => true
  | _, PosInf => true
  | PosInf, _ => false
  | _, NegInf => false
  | Fin m1 e1, Fin m2 e2 =>
      let lo := Z.min e1 e2 in
      scale m1 e1 lo <=? scale m2 e2 lo
  end.

(** [a >= b] is [b <= a]. *)
Definition geb (a b : number) : bool := leb b a.

(** [x <= 0]. *)
Definition nonpos (x : number) : bool :=
  match x with
  | NaN | PosInf => false
  | NegInf => true
  | Fin m _ => m <=? 0
  end.

(** [x === 0]. *)
Definition isZero (x : number) : bool :=
  match x with Fin m _ => m =? 0 | _ => false end.

Definition ofZ (z : Z) : number := Fin z 0.

(** ** Values

    The primitive values a JSON-fed host can put in a row. *)
Inductive value : Type :=
| JUndefined
| JNull
| JBool (b : bool)
| JNum (x : number)
| JStr (s : string).

(** Exceptions. *)
Inductive Error : Type :=
| TypeError (msg : string)
| PlainError (msg : string).

Inductive Result (A : Type) : Type :=
| Ok (a : A)
| Throw (err : Error).
Arguments Ok {A} a.
Arguments Throw {A} err.

Definition isOk {A} (r : Result A) : bool :=
  match r with Ok _ => true | Throw _ => false end.

(** [arr[i]]: [undefined] past the end. *)
Definition index (row : list value) (i : nat) : value := nth i row JUndefined.

(** ToBoolean. *)
Definition truthy (v : value) : bool :=
  match v with
  | JUndefined | JNull => false
  | JBool b => b
  | JNum x => negb (isNaN x) && negb (isZero x)
  | JStr s => negb (String.eqb s "")
  end.

(** ** Decimal digits *)

Definition isDigit (c : ascii) : bool :=
  (48 <=? nat_of_ascii c)%nat && (nat_of_ascii c <=? 57)%nat.

Definition digitVal (c : ascii) : Z := Z.of_nat (nat_of_ascii c) - 48.

(** The longest prefix of decimal digits, and what follows it. *)
Fixpoint spanDigits (s : string) : string * string :=
  match s with
  | String c r =>
      if isDigit c then let '(d, rest) := spanDigits r in (String c d, rest)
      else ("", s)
  | EmptyString => ("", "")
  end.

Fixpoint digitsValue (acc : Z) (ds : string) : Z :=
  match ds with
  | String c r => digitsValue (10 * acc + digitVal c) r
  | EmptyString => acc
  end.

(** The decimal digits of a natural number. *)
Definition digitsOf (z : Z) : string :=
  NilZero.string_of_uint (N.to_uint (Z.to_N z)).

Fixpoint zeros (n : nat) : string :=
  match n with O => "" | S k => String "0" (zeros k) end.

Fixpoint take (n : nat) (s : string) : string :=
  match n, s with
  | S k, String c r => String c (take k r)
  | _, _ => ""
  end.

Fixpoint drop (n : nat) (s : string) : string :=
  match n, s with
  | S k, String _ r => drop k r
  | _, _ => s
  end.

Fixpoint rev_string (acc s : string) : string :=
  match s with
  | String c r => rev_string (String c acc) r
  | EmptyString => acc
  end.

(** Drop leading ["0"] characters, counting them. *)
Fixpoint dropZeros (s : string) : nat * string :=
  match s with
  | String "0" r => let '(n, t) := dropZeros r in (S n, t)
  | _ => (O, s)
  end.

(** Digits without their trailing zeros, and how many were removed. *)
Definition stripTrailingZeros (ds : string) : nat * string :=
  let '(n, t) := dropZeros (rev_string "" ds) in (n, rev_string "" t).

(** ** Number.prototype.toString (radix 10)

    With [s] the digits of the value without trailing zeros, [k] their count
    and [n] the position of the decimal point, as in the language
    definition: plain digits up to [10^21], a leading ["0."] down to
    [10^-6], exponent notation beyond. *)
Definition numberToString (x : number) : string :=
  match x with
  | NaN => "NaN"
  | PosInf => "Infinity"
  | NegInf => "-Infinity"
  | Fin m e =>
      if m =? 0 then "0" else
      let sign := if m <? 0 then "-" else "" in
      let '(z, s) := stripTrailingZeros (digitsOf (Z.abs m)) in
      let k := Z.of_nat (String.length s) in
      let n := k + e + Z.of_nat z in
      sign ++
      (if (k <=? n) && (n <=? 21) then s ++ zeros (Z.to_nat (n - k))
       else if (0 <? n) && (n <=? 21) then
              take (Z.to_nat n) s ++ "." ++ drop (Z.to_nat n) s
       else if (-6 <? n) && (n <=? 0) then "0." ++ zeros (Z.to_nat (- n)) ++ s
       else
         let ex := n - 1 in
         let exs := (if ex <? 0 then "-" else "+") ++ digitsOf (Z.abs ex) in
         if k =? 1 then s ++ "e" ++ exs
         else take 1 s ++ "." ++ drop 1 s ++ "e" ++ exs)
  end.

(** ToString, the conversion behind [String(v)]. *)
Definition ToString (v : value) : string :=
  match v with
  | JUndefined => "undefined"
  | JNull => "null"
  | JBool true => "true"
  | JBool false => "false"
  | JNum x => numberToString x
  | JStr s => s
  end.

(** [v.toString()]: a property access on [undefined] or [null] throws. *)
Definition toString (v : value) : Result string :=
  match v with
  | JUndefined =>
      Throw (TypeError "Cannot read properties of undefined (reading 'toString')")
  | JNull =>
      Throw (TypeError "Cannot read properties of null (reading 'toString')")
  | _ => Ok (ToString v)
  end.

(** ** parseFloat *)

Definition isWhiteSpace (c : ascii) : bool :=
  let n := nat_of_ascii c in
  ((9 <=? n)%nat && (n <=? 13)%nat) || (n =? 32)%nat.

Fixpoint trimStart (s : string) : string :=
  match s with
  | String c r => if isWhiteSpace c then trimStart r else s
  | EmptyString => s
  end.

(** An optional sign: [true] for ["-"]. *)
Definition takeSign (s : string) : bool * string :=
  match s with
  | String "-" r => (true, r)
  | String "+" r => (false, r)
  | _ => (false, s)
  end.

(** The exponent part [e[+-]digits], taken only when a digit follows. *)
Definition exponentPart (s : string) : Z :=
  match s with
  | String c r =>
      if (c =? "e")%char || (c =? "E")%char then
        let '(neg, r1) := takeSign r in
        let '(ds, _) := spanDigits r1 in
        if String.eqb ds "" then 0
        else if neg then - digitsValue 0 ds else digitsValue 0 ds
      else 0
  | EmptyString => 0
  end.

(** The longest prefix of the trimmed string that is a decimal literal. *)
Definition parseFloatString (s : string) : number :=
  let '(neg, s1) := takeSign (trimStart s) in
  if prefix "Infinity" s1 then (if neg then NegInf else PosInf) else
  let '(ip, r1) := spanDigits s1 in
  let '(fp, r2) :=
    match r1 with
    | String "." r => spanDigits r
    | _ => ("", r1)
    end in
  if String.eqb ip "" && String.eqb fp "" then NaN else
  let m := digitsValue 0 (ip ++ fp) in
  Fin (if neg then - m else m) (exponentPart r2 - Z.of_nat (String.length fp)).

(** [parseFloat(v)] converts its argument to a string and parses that; on a
    number this gives the number back. *)
Definition parseFloat (v : value) : number :=
  match v with
  | JNum x => x
  | JStr s => parseFloatString s
  | JUndefined | JNull | JBool _ => NaN
  end.

(** ** String.prototype.replace with a string pattern

    Only the first occurrence is replaced. *)
Fixpoint replace (pat rep s : string) : string :=
  if prefix pat s then rep ++ drop (String.length pat) s
  else match s with
       | String c r => String c (replace pat rep r)
       | EmptyString => ""
       end.

(** ** Array.prototype.sort

    The comparator's result [v] is read as in the language definition: [NaN]
    counts as [+0].  The sort is stable; for a consistent comparator every
    stable sort returns the same array, and insertion sort is the one
    written here.  For an inconsistent comparator (here: a [NaN] key) the
    language leaves the order to the engine, and all that is common to every
    engine is that the result is a rearrangement of the input: statements
    about the order itself carry the hypothesis that no key is [NaN]. *)
Section Sort.
Context {A : Type} (comparefn : A -> A -> number).

Definition SortCompare (x y : A) : number :=
  let v := comparefn x y in
  if isNaN v then Fin 0 0 else v.

Fixpoint insert (x : A) (l : list A) : list A :=
  match l with
  | [] => [x]
  | y :: l' =>
      if nonpos (SortCompare x y) then x :: l else y :: insert x l'
  end.

Fixpoint sort (l : list A) : list A :=
  match l with
  | [] => []
  | x :: l' => insert x (sort l')
  end.
End Sort.

End JS.

(* ------------------------------------------------------------------ *)
(** * The numeral formatter *)
(* ------------------------------------------------------------------ *)

(** [numeral] is a third-party package; [numberFormatter] calls
    [numeral(value).format(fmt)].  This module follows the package's
    [numberToFormat] and [toFixed] (version 2) on the formats
    [numberFormatter] builds from a plain pattern: zeros, at most one
    decimal point, and the abbreviation letter ["a"] at the end, applied to a
    finite number.  Outside that fragment [format] answers [None]. *)
Module Numeral.
Import JS.

Fixpoint includes (pat s : string) : bool :=
  prefix pat s ||
  match s with
  | String _ r => includes pat r
  | EmptyString => false
  end.

(** [s.split('.')], first two parts. *)
Fixpoint splitDot (s : string) : string * option string :=
  match s with
  | String "." r => ("", Some r)
  | String c r => let '(a, b) := splitDot r in (String c a, b)
  | EmptyString => ("", None)
  end.

(** The shape of a format: number of zeros before the point, and number of
    zeros after it when there is a point. *)
Definition parseFormat (fmt : string) : option (nat * option nat) :=
  let '(n1, r1) := dropZeros fmt in
  match r1 with
  | "a" => Some (n1, None)
  | String "." r =>
      let '(n2, r2) := dropZeros r in
      if String.eqb r2 "a" then Some (n1, Some n2) else None
  | _ => None
  end.

(** [Math.round] of [m * 10^e]: halves go up. *)
Definition round (m e : Z) : Z :=
  if 0 <=? e then m * 10 ^ e
  else let p := 10 ^ (- e) in (2 * m + p) / (2 * p).

(** [(r / 10^p).toFixed(p)] for an integer [r]. *)
Definition fixedString (r : Z) (p : nat) : string :=
  let ds := digitsOf (Z.abs r) in
  let ds := zeros (S p - String.length ds) ++ ds in
  let n := (String.length ds - p)%nat in
  (if r <? 0 then "-" else "") ++ take n ds ++
  (if (p =? 0)%nat then "" else "." ++ drop n ds).

(** [numeral._.toFixed(value, maxDecimals, Math.round)]: scale up, round,
    scale down, print with [maxDecimals] decimals. *)
Definition toFixed (m e : Z) (maxDecimals : nat) : string :=
  fixedString (round m (e + Z.of_nat maxDecimals)) maxDecimals.

Definition trillion : Z := 1000000000000.
Definition billion : Z := 1000000000.
Definition million : Z := 1000000.
Definition thousand : Z := 1000.

(** The abbreviation letter of the English locale and the scaled value. *)
Definition abbreviate (m e : Z) : string * (Z * Z) :=
  let abs := Fin (Z.abs m) e in
  if leb (ofZ trillion) abs then ("t", (m, e - 12))
  else if leb (ofZ billion) abs then ("b", (m, e - 9))
  else if leb (ofZ million) abs then ("m", (m, e - 6))
  else if leb (ofZ thousand) abs then ("k", (m, e - 3))
  else ("", (m, e)).

Definition nextAbbreviation (abbr : string) : string :=
  if String.eqb abbr "k" then "m"
  else if String.eqb abbr "m" then "b"
  else if String.eqb abbr "b" then "t"
  else abbr.

Definition numberToFormat (m e : Z) (leadingCount : nat)
    (precision : option nat) (dotFirst : bool) : option string :=
  let '(abbr, (m1, e1)) := abbreviate m e in
  if includes "e" (numberToString (Fin m1 e1)) then None else
  let decimals := match precision with Some p => p | None => O end in
  let fixed := toFixed m1 e1 decimals in
  let '(int, frac) := splitDot fixed in
  let decimal := match frac with Some d => "." ++ d | None => "" end in
  (* check abbreviation again after rounding *)
  let '(int, abbr) :=
    if negb (String.eqb abbr "") && negb (prefix "-" int)
       && (1000 <=? digitsValue 0 int) && negb (String.eqb abbr "t")
    then (numberToString (Fin (digitsValue 0 int) (-3)), nextAbbreviation abbr)
    else (int, abbr) in
  let neg := includes "-" int in
  let int := if neg then drop 1 int else int in
  let int := zeros (leadingCount - String.length int) ++ int in
  let int := if dotFirst then "" else int in
  let output := int ++ decimal ++ abbr in
  Some (if neg then "-" ++ output else output).

(** [numeral(value).format(fmt)]. *)
Definition format (value : number) (fmt : string) : option string :=
  match value, parseFormat fmt with
  | Fin m e, Some (leadingCount, precision) =>
      numberToFormat m e leadingCount precision
        (match leadingCount, precision with O, Some _ => true | _, _ => false end)
  | _, _ => None
  end.

End Numeral.

(* ------------------------------------------------------------------ *)
(** * Host SDK types *)
(* ------------------------------------------------------------------ *)

Module SDK.
Import JS.

Inductive ColumnType : Type := MEASURE | ATTRIBUTE | UNKNOWN.

Definition ColumnType_eqb (a b : ColumnType) : bool :=
  match a, b with
  | MEASURE, MEASURE | ATTRIBUTE, ATTRIBUTE | UNKNOWN, UNKNOWN => true
  | _, _ => false
  end.

(** [ChartColumn]: the fields the plugin reads. *)
Record ChartColumn : Type := mkColumn {
  id : string;
  name : string;
  type : ColumnType
}.

(** The [columns] property of a dimension.  The SDK declares an array;
    [getDefaultChartConfig] stores a single column object in the first three
    dimensions, so both shapes occur. *)
Inductive Columns : Type :=
| OneColumn (c : ChartColumn)
| ColumnArray (cs : list ChartColumn).

Record ChartConfigDimension : Type := mkDimension {
  key : string;
  columns : Columns
}.

Record ChartConfig : Type := mkChartConfig {
  configKey : string;
  dimensions : list ChartConfigDimension
}.

Record Query : Type := mkQuery {
  queryColumns : list ChartColumn
}.

(** [DataPointsArray]: column ids and the rows, [any[][]]. *)
Record DataPointsArray : Type := mkDataPoints {
  dataColumns : list string;
  dataValue : list (list value)
}.

Record QueryData : Type := mkQueryData {
  data : option DataPointsArray
}.

(** [chartModel.visualProps], read through the plugin's [VisualProps]
    interface; a property the host left out is [None]. *)
Record VisualProps : Type := mkVisualProps {
  numberFormat : option string;
  numOfLabels : option number;
  vpGradientColor0 : option string;
  vpGradientColor50 : option string;
  vpGradientColor100 : option string
}.

Record ChartModelConfig : Type := mkModelConfig {
  chartConfig : option (list ChartConfig)
}.

(** [ChartModel]; the optional members are the ones the SDK declares
    optional or the plugin reads through [?.]. *)
Record ChartModel : Type := mkChartModel {
  cmColumns : list ChartColumn;
  cmData : option (list QueryData);
  cmVisualProps : option VisualProps;
  cmConfig : option ChartModelConfig
}.

(** The payload of [OpenContextMenu]. *)
Record ParsedEvent : Type := mkParsedEvent {
  clientX : JS.value;
  clientY : JS.value
}.

Record TupleEntry : Type := mkTuple {
  columnId : string;
  tupleValue : JS.value
}.

(** What a custom action does when the host triggers it. *)
Inductive ActionHandler : Type :=
| LogArguments
| DownloadChartAsPNG.

Record CustomAction : Type := mkAction {
  actionId : string;
  label : string;
  icon : string;
  onClick : ActionHandler
}.

Record ContextMenuPayload : Type := mkPayload {
  event : ParsedEvent;
  clickedPoint : list TupleEntry;
  customActions : list CustomAction
}.

Inductive ChartToTSEvent : Type :=
| RenderStart
| RenderComplete
| RenderError (hasError : bool) (error : Error)
| OpenContextMenu (payload : ContextMenuPayload).

(** The click event Highcharts passes to a point handler: a pointer event
    that always carries its [point]. *)
Record PointClickEvent : Type := mkClick {
  evClientX : JS.value;
  evClientY : JS.value;
  pointPageX : JS.value;
  pointPageY : JS.value
}.

End SDK.

(* ------------------------------------------------------------------ *)
(** * The plugin: [src/treemap.ts] *)
(* ------------------------------------------------------------------ *)

(** [getTickPositions] is never called, and [init] only hands the callbacks
    below to the host and calls [renderChart] once; neither is modelled. *)
Module Treemap.
Import JS SDK.

(** ** Data built by the plugin *)

(** One entry of a point's [tooltipData]; [tipValue] is the [value]
    property, the raw row entry. *)
Record TooltipEntry : Type := mkTooltip {
  columnName : string;
  tipValue : JS.value
}.

(** A treemap point, as built by [getDataModel] and handed to the chart. *)
Record TreemapPoint : Type := mkPoint {
  name : string;
  value : number;
  colorValue : number;
  tooltipData : list TooltipEntry
}.

(** The object [getDataModel] returns; the last two properties are absent
    on the failure paths. *)
Record DataModel : Type := mkDataModel {
  values : list TreemapPoint;
  categoryName : option string;
  measureColumns : option (list string)
}.

(** The options object given to [Highcharts.chart], without its constant
    styling.  The click handler and the formatters are closures; the record
    keeps the variables they capture ([clickCategoryColumn],
    [clickMeasureColumn], [tooltipCategoryName], [labelMeasureColumns]) and
    the functions themselves are [click] and [numberFormatter] below. *)
Record ChartOptions : Type := mkOptions {
  renderTo : string;
  seriesType : string;
  layoutAlgorithm : string;
  seriesData : list TreemapPoint;
  clickCategoryColumn : string;
  clickMeasureColumn : string;
  minColor : string;
  maxColor : string;
  stops : list (number * string);
  legendTitle : option string;
  tooltipCategoryName : option string;
  labelMeasureColumns : option (list string)
}.

(** ** Module-level variables *)

Record Globals : Type := mkGlobals {
  userNumberFormat : string;
  numberOfLabels : number;
  gradientColor0 : string;
  gradientColor50 : string;
  gradientColor100 : string
}.

(** Their values when the module is loaded. *)
Definition initialGlobals : Globals :=
  {| userNumberFormat := "0.0";
     numberOfLabels := Fin 1 0;
     gradientColor0 := "#F0F0F0";
     gradientColor50 := "#A8D5BA";
     gradientColor100 := "#4F6D7A" |}.

(** ** Effects *)

Inductive Effect : Type :=
| ConsoleLog (msg : string)
| ConsoleError (msg : string)
| EmitEvent (ev : ChartToTSEvent)
| HighchartsChart (options : ChartOptions)
| ExportChartLocal (mime filename : string).

(** A computation reads and writes the module-level variables, may throw,
    and produces effects in order.  A throw keeps the variables written and
    the effects produced so far. *)
Definition M (A : Type) : Type := Globals -> Result A * Globals * list Effect.

Definition ret {A} (a : A) : M A := fun g => (Ok a, g, []).

Definition bind {A B} (m : M A) (k : A -> M B) : M B := fun g =>
  match m g with
  | (Ok a, g1, t1) => let '(r, g2, t2) := k a g1 in (r, g2, (t1 ++ t2)%list)
  | (Throw e, g1, t1) => (Throw e, g1, t1)
  end.

Definition throw {A} (e : Error) : M A := fun g => (Throw e, g, []).

Definition lift {A} (r : Result A) : M A := fun g => (r, g, []).

Definition tryCatch {A} (body : M A) (handler : Error -> M A) : M A := fun g =>
  match body g with
  | (Ok a, g1, t1) => (Ok a, g1, t1)
  | (Throw e, g1, t1) => let '(r, g2, t2) := handler e g1 in (r, g2, (t1 ++ t2)%list)
  end.

Definition tryFinally {A} (body : M A) (finalizer : M unit) : M A := fun g =>
  let '(r, g1, t1) := body g in
  match finalizer g1 with
  | (Ok _, g2, t2) => (r, g2, (t1 ++ t2)%list)
  | (Throw e, g2, t2) => (Throw e, g2, (t1 ++ t2)%list)
  end.

Definition effect (e : Effect) : M unit := fun g => (Ok tt, g, [e]).
Definition getGlobals : M Globals := fun g => (Ok g, g, []).
Definition modifyGlobals (f : Globals -> Globals) : M unit :=
  fun g => (Ok tt, f g, []).

Notation "x <- m ;; k" := (bind m (fun x => k))
  (at level 61, m at next level, right associativity).
Notation "m ;; k" := (bind m (fun _ => k))
  (at level 61, right associativity).

Definition consoleLog (msg : string) : M unit := effect (ConsoleLog msg).
Definition consoleError (msg : string) : M unit := effect (ConsoleError msg).
Definition emitEvent (ev : ChartToTSEvent) : M unit := effect (EmitEvent ev).

(** Projections of a run. *)
Definition result {A} (run : Result A * Globals * list Effect) : Result A :=
  fst (fst run).
Definition globalsAfter {A} (run : Result A * Globals * list Effect) : Globals :=
  snd (fst run).
Definition effects {A} (run : Result A * Globals * list Effect) : list Effect :=
  snd run.

(** The host events among some effects, in order. *)
Fixpoint emitted (t : list Effect) : list ChartToTSEvent :=
  match t with
  | EmitEvent ev :: t' => ev :: emitted t'
  | _ :: t' => emitted t'
  | [] => []
  end.

(** The option objects of the calls to [Highcharts.chart], in order. *)
Fixpoint chartCalls (t : list Effect) : list ChartOptions :=
  match t with
  | HighchartsChart o :: t' => o :: chartCalls t'
  | _ :: t' => chartCalls t'
  | [] => []
  end.

(** The messages given to [console.error], in order. *)
Fixpoint errorsLogged (t : list Effect) : list string :=
  match t with
  | ConsoleError msg :: t' => msg :: errorsLogged t'
  | _ :: t' => errorsLogged t'
  | [] => []
  end.

(** ** numberFormatter

    [numeral] does not throw on a number, so the [catch] branch, which
    returns the value unformatted, is not reached; the result is [None]
    exactly when the format is outside the fragment [Numeral] covers. *)
Definition numberFormatter (value : number) (format : string) : option string :=
  let abbreviationFormat := format ++ "a" in
  match Numeral.format value abbreviationFormat with
  | Some formattedValue =>
      Some (replace "b" "B" (replace "m" "M" (replace "k" "K" formattedValue)))
  | None => None
  end.

(** ** getDataModel *)

Definition emptyDataModel : DataModel :=
  {| values := []; categoryName := None; measureColumns := None |}.

(** [chartModel.config?.chartConfig?.[0].dimensions ?? []]: the access to
    [dimensions] is not optional, so an empty [chartConfig] array throws. *)
Definition configDimensionsOf (chartModel : ChartModel)
  : Result (list ChartConfigDimension) :=
  match cmConfig chartModel with
  | None => Ok []
  | Some config =>
      match chartConfig config with
      | None => Ok []
      | Some [] =>
          Throw (TypeError "Cannot read properties of undefined (reading 'dimensions')")
      | Some (c :: _) => Ok (dimensions c)
      end
  end.

(** [chartModel.data?.[0]?.data ?? undefined]. *)
Definition dataArrOf (chartModel : ChartModel) : option DataPointsArray :=
  match cmData chartModel with
  | Some (q :: _) => data q
  | _ => None
  end.

(** [dims?.[i]?.columns?.[0]]: index [0] of a single column object is
    [undefined]. *)
Definition firstColumnOf (dims : list ChartConfigDimension) (i : nat)
  : option ChartColumn :=
  match nth_error dims i with
  | Some d =>
      match columns d with
      | ColumnArray (c :: _) => Some c
      | _ => None
      end
  | None => None
  end.

Definition isMeasure (col : ChartColumn) : bool :=
  ColumnType_eqb (type col) MEASURE.
Definition isAttribute (col : ChartColumn) : bool :=
  ColumnType_eqb (type col) ATTRIBUTE.

(** [arr.map((x, i) => f(x, i))]. *)
Fixpoint mapi_from {A B} (i : nat) (f : A -> nat -> B) (l : list A) : list B :=
  match l with
  | [] => []
  | x :: l' => f x i :: mapi_from (S i) f l'
  end.
Definition mapi {A B} (f : A -> nat -> B) (l : list A) : list B :=
  mapi_from 0 f l.

(** [arr.map(f)] for a callback that may throw: the first throw ends it. *)
Fixpoint mapResult {A B} (f : A -> Result B) (l : list A) : Result (list B) :=
  match l with
  | [] => Ok []
  | x :: l' =>
      match f x with
      | Ok y =>
          match mapResult f l' with
          | Ok ys => Ok (y :: ys)
          | Throw e => Throw e
          end
      | Throw e => Throw e
      end
  end.

(** The callback of [dataArr.dataValue.map]. *)
Definition rowToPoint (measureCols : list ChartColumn) (row : list JS.value)
  : Result TreemapPoint :=
  let categoryName := index row 0 in
  let tooltipData :=
    mapi (fun col colIndex =>
            let measureValue := index row (colIndex + 1) in
            {| columnName := SDK.name col; tipValue := measureValue |})
         measureCols in
  match (match categoryName with
         | JUndefined => Ok "Unnamed"
         | _ => toString categoryName
         end) with
  | Ok n =>
      Ok {| name := n;
            value := parseFloat (index row 1);
            colorValue := parseFloat (index row 2);
            tooltipData := tooltipData |}
  | Throw e => Throw e
  end.

(** The comparator [(a, b) => b.value - a.value]. *)
Definition byValueDescending (a b : TreemapPoint) : number :=
  sub (value b) (value a).

Definition getDataModel (chartModel : ChartModel) : M DataModel :=
  consoleLog "Extracting data model from chartModel: " ;;
  tryCatch
    (configDimensions <- lift (configDimensionsOf chartModel) ;;
     match dataArrOf chartModel with
     | None =>
         consoleError "No data found in chartModel" ;;
         ret emptyDataModel
     | Some dataArr =>
         let categoryColumn := firstColumnOf configDimensions 0 in
         let measureCols := filter isMeasure (cmColumns chartModel) in
         match categoryColumn with
         | Some cat =>
             if (List.length measureCols =? 0)%nat then
               consoleError "The chart requires a category and at least one measure." ;;
               ret emptyDataModel
             else
               dataModel <- lift (mapResult (rowToPoint measureCols)
                                            (dataValue dataArr)) ;;
               ret {| values := sort byValueDescending dataModel;
                      categoryName := Some (SDK.name cat);
                      measureColumns := Some (map SDK.name measureCols) |}
         | None =>
             consoleError "The chart requires a category and at least one measure." ;;
             ret emptyDataModel
         end
     end)
    (fun error =>
       consoleError "Error in getDataModel: " ;;
       ret emptyDataModel).

(** ** Click handling *)

(** [chartInstance.exportChartLocal(...)], the download action. *)
Definition downloadChartAsPNG : M unit :=
  consoleLog "Downloading chart as PNG..." ;;
  effect (ExportChartLocal "image/png" "treemap-chart").

(** [a || b]. *)
Definition orElse (a b : JS.value) : JS.value := if truthy a then a else b.

Definition getParsedEvent (evt : PointClickEvent) : M ParsedEvent :=
  consoleLog "Extracting clientX and clientY from event: " ;;
  ret {| clientX := orElse (evClientX evt) (pointPageX evt);
         clientY := orElse (evClientY evt) (pointPageY evt) |}.

Definition contextMenuActions : list CustomAction :=
  [ {| actionId := "custom-action-1"; label := "Custom user action 1";
       icon := ""; onClick := LogArguments |};
    {| actionId := "download-chart"; label := "Download chart";
       icon := ""; onClick := DownloadChartAsPNG |} ].

(** The [click] handler of the series' points.  [categoryColumn] and
    [measureColumn] are the column ids [render] captured; [this] is the
    clicked point. *)
Definition click (categoryColumn measureColumn : string)
    (this : TreemapPoint) (e : PointClickEvent) : M unit :=
  consoleLog "Point click event triggered" ;;
  let clickedPointDetails := this in
  let categoryValue := name clickedPointDetails in
  let measureValue := value clickedPointDetails in
  consoleLog "Clicked Point Details: " ;;
  parsed <- getParsedEvent e ;;
  emitEvent (OpenContextMenu
    {| event := parsed;
       clickedPoint :=
         [ {| columnId := categoryColumn; tupleValue := JStr categoryValue |};
           {| columnId := measureColumn; tupleValue := JNum measureValue |} ];
       customActions := contextMenuActions |}).

(** The handler installed by a given options object. *)
Definition clickHandler (options : ChartOptions)
  : TreemapPoint -> PointClickEvent -> M unit :=
  click (clickCategoryColumn options) (clickMeasureColumn options).

(** ** render *)

(** [ctx.getChartModel()]: a model, [undefined], or a throw. *)
Record CustomChartContext : Type := mkContext {
  getChartModel : Result (option ChartModel)
}.

(** [a || b] on a string property that may be absent. *)
Definition orString (a : option string) (b : string) : string :=
  match a with
  | Some s => if truthy (JStr s) then s else b
  | None => b
  end.

(** [a || b] on a number property that may be absent. *)
Definition orNumber (a : option number) (b : number) : number :=
  match a with
  | Some x => if truthy (JNum x) then x else b
  | None => b
  end.

(** The five assignments that open the rendering proper. *)
Definition applyVisualProps (visualProps : VisualProps) (g : Globals) : Globals :=
  {| userNumberFormat := orString (numberFormat visualProps) (userNumberFormat g);
     numberOfLabels := orNumber (numOfLabels visualProps) (numberOfLabels g);
     gradientColor0 := orString (vpGradientColor0 visualProps) (gradientColor0 g);
     gradientColor50 := orString (vpGradientColor50 visualProps) (gradientColor50 g);
     gradientColor100 :=
       orString (vpGradientColor100 visualProps) (gradientColor100 g) |}.

(** [chartModel.config?.chartConfig?.[0]?.dimensions?.[i]?.columns?.[0]]. *)
Definition dimensionColumn (chartModel : ChartModel) (i : nat)
  : option ChartColumn :=
  match cmConfig chartModel with
  | Some config =>
      match chartConfig config with
      | Some (c :: _) => firstColumnOf (dimensions c) i
      | _ => None
      end
  | None => None
  end.

(** [!s] for a string that may be [undefined]. *)
Definition missing (s : option string) : bool :=
  match s with
  | Some x => negb (truthy (JStr x))
  | None => true
  end.

Definition colorStops (g : Globals) : list (number * string) :=
  [ (Fin 0 0, gradientColor0 g);
    (Fin 5 (-1), gradientColor50 g);
    (Fin 1 0, gradientColor100 g) ].

(** The options object.  The series data are the points, each copied with
    its own [colorValue]. *)
Definition chartOptions (dataModel : DataModel) (g : Globals)
    (categoryColumn measureColumn : string) (colorAxisColumn : option string)
  : ChartOptions :=
  {| renderTo := "chart";
     seriesType := "treemap";
     layoutAlgorithm := "squarified";
     seriesData :=
       map (fun dataPoint =>
              {| name := name dataPoint;
                 value := value dataPoint;
                 colorValue := colorValue dataPoint;
                 tooltipData := tooltipData dataPoint |})
           (values dataModel);
     clickCategoryColumn := categoryColumn;
     clickMeasureColumn := measureColumn;
     minColor := gradientColor0 g;
     maxColor := gradientColor100 g;
     stops := colorStops g;
     legendTitle := colorAxisColumn;
     tooltipCategoryName := categoryName dataModel;
     labelMeasureColumns := measureColumns dataModel |}.

(** [render(ctx)].  [Highcharts_chart] tells whether the chart library
    throws on the options it is given.  [minColorValue] and [maxColorValue]
    are computed by the source and never used; they are left out.  Their
    computation spreads the point list into an argument list, which an
    engine refuses with a [RangeError] when the list is too long; the
    [catch] below then logs it like any other failure, after the
    assignments and before the chart call.  That path is not represented:
    the statements about [render] say what a pass does when it calls the
    chart library, not that a long list gets that far. *)
Definition render (Highcharts_chart : ChartOptions -> Result unit)
    (ctx : CustomChartContext) : M unit :=
  consoleLog "Rendering the chart..." ;;
  tryCatch
    (chartModel <- lift (getChartModel ctx) ;;
     match chartModel with
     | None => consoleError "chartModel is undefined"
     | Some chartModel =>
         dataModel <- getDataModel chartModel ;;
         if (List.length (values dataModel) =? 0)%nat then
           consoleError "No valid data to render."
         else
           visualProps <-
             match cmVisualProps chartModel with
             | Some vp => ret vp
             | None =>
                 throw (TypeError
                   "Cannot read properties of undefined (reading 'numberFormat')")
             end ;;
           modifyGlobals (applyVisualProps visualProps) ;;
           let categoryColumn := option_map SDK.id (dimensionColumn chartModel 0) in
           let measureColumn := option_map SDK.id (dimensionColumn chartModel 1) in
           let colorAxisColumn :=
             option_map SDK.name (dimensionColumn chartModel 2) in
           if missing categoryColumn || missing measureColumn then
             consoleError
               "Invalid configuration: Missing category or measure columns."
           else
             g <- getGlobals ;;
             let options :=
               chartOptions dataModel g
                 (match categoryColumn with Some s => s | None => "" end)
                 (match measureColumn with Some s => s | None => "" end)
                 colorAxisColumn in
             effect (HighchartsChart options) ;;
             lift (Highcharts_chart options)
     end)
    (fun error => consoleError "Render failed: ").

(** ** renderChart *)

Definition renderChart (Highcharts_chart : ChartOptions -> Result unit)
    (ctx : CustomChartContext) : M unit :=
  consoleLog "Starting chart rendering process..." ;;
  tryFinally
    (tryCatch
       (emitEvent RenderStart ;;
        render Highcharts_chart ctx)
       (fun error =>
          consoleError "Error during renderChart: " ;;
          emitEvent (RenderError true error)))
    (emitEvent RenderComplete).

(** ** The callbacks registered in [init] *)

(** [arr.slice(from, to)]. *)
Definition slice {A} (from to : nat) (l : list A) : list A :=
  firstn (to - from) (skipn from l).

Definition getDefaultChartConfig (chartModel : ChartModel) : M (list ChartConfig) :=
  consoleLog "Generating default chart configuration..." ;;
  let cols := cmColumns chartModel in
  let attributeColumns := filter isAttribute cols in
  let measureCols := filter isMeasure cols in
  consoleLog "Attribute columns:" ;;
  consoleLog "Measure columns:" ;;
  if (List.length attributeColumns =? 0)%nat || (List.length measureCols =? 0)%nat
  then
    throw (PlainError
      "Invalid chart configuration: Missing required attribute or measure columns.")
  else
    let axisConfig :=
      {| configKey := "default";
         dimensions :=
           [ {| key := "category";
                columns := match attributeColumns with
                           | c :: _ => OneColumn c
                           | [] => ColumnArray []
                           end |};
             {| key := "measure";
                columns := match measureCols with
                           | c :: _ => OneColumn c
                           | [] => ColumnArray []
                           end |};
             {| key := "color axis";
                columns := match measureCols with
                           | _ :: c :: _ => OneColumn c
                           | _ => ColumnArray []
                           end |};
             {| key := "Labels";
                columns := if (2 <? List.length measureCols)%nat
                           then ColumnArray (slice 2 4 measureCols)
                           else ColumnArray [] |};
             {| key := "Tooltip columns";
                columns := if (4 <? List.length measureCols)%nat
                           then ColumnArray (skipn 4 measureCols)
                           else ColumnArray [] |} ] |} in
    consoleLog "Chart Config:" ;;
    ret [axisConfig].

(** [...dimension.columns]: spreading a plain object into an array
    literal throws. *)
Definition spread (c : Columns) : Result (list ChartColumn) :=
  match c with
  | ColumnArray cs => Ok cs
  | OneColumn _ => Throw (TypeError "dimension.columns is not iterable")
  end.

Definition getQueriesFromChartConfig (chartConfig : list ChartConfig)
  : Result (list Query) :=
  mapResult
    (fun config =>
       fold_left
         (fun acc dimension =>
            match acc with
            | Ok q =>
                match spread (columns dimension) with
                | Ok cs => Ok {| queryColumns := (queryColumns q ++ cs)%list |}
                | Throw e => Throw e
                end
            | Throw e => Throw e
            end)
         (dimensions config)
         (Ok {| queryColumns := [] |}))
    chartConfig.

End Treemap.

(* ------------------------------------------------------------------ *)
(** * Vocabulary of the properties *)
(* ------------------------------------------------------------------ *)

Import JS SDK Treemap.
Local Open Scope list_scope.

(** [a] may come before [b] in a list sorted by descending value:
    [a.value >= b.value]. *)
Definition descending (a b : TreemapPoint) : Prop :=
  geb (value a) (value b) = true.

(** The rows of the first query result, none when there is no data. *)
Definition rowsOf (chartModel : ChartModel) : list (list JS.value) :=
  match dataArrOf chartModel with
  | Some dataArr => dataValue dataArr
  | None => []
  end.

(** The name a row is said to get: ['Unnamed'] when the category is
    [undefined], the string conversion of the category otherwise. *)
Definition expectedName (row : list JS.value) : string :=
  match index row 0 with
  | JUndefined => "Unnamed"
  | v => ToString v
  end.

(** A chart model is given to [render] by a context that returns it. *)
Definition contextOf (chartModel : ChartModel) : CustomChartContext :=
  {| getChartModel := Ok (Some chartModel) |}.

(** Two chart models that differ at most in the three gradient colours of
    their visual properties. *)
Definition sameExceptGradient (cm1 cm2 : ChartModel) : Prop :=
  cmColumns cm1 = cmColumns cm2 /\
  cmData cm1 = cmData cm2 /\
  cmConfig cm1 = cmConfig cm2 /\
  exists vp1 vp2,
    cmVisualProps cm1 = Some vp1 /\ cmVisualProps cm2 = Some vp2 /\
    numberFormat vp1 = numberFormat vp2 /\
    numOfLabels vp1 = numOfLabels vp2.

(** The one line [getDataModel] logs on its way in. *)
Definition getDataModelLog : Effect :=
  ConsoleLog "Extracting data model from chartModel: ".

(** A chart library that accepts every options object. *)
Definition chartOk (_ : ChartOptions) : Result unit := Ok tt.

(** Unfolding of the effect monad's combinators. *)
Ltac run_monad :=
  unfold bind, tryCatch, tryFinally, lift, throw, ret, consoleLog, consoleError,
    emitEvent, effect, getGlobals, modifyGlobals.

(** ** Sample inputs *)

Module Sample.

Definition region : ChartColumn :=
  {| id := "col-region"; SDK.name := "Region"; type := ATTRIBUTE |}.
Definition sales : ChartColumn :=
  {| id := "col-sales"; SDK.name := "Sales"; type := MEASURE |}.
Definition profit : ChartColumn :=
  {| id := "col-profit"; SDK.name := "Profit"; type := MEASURE |}.

Definition config (measures : list ChartColumn) : ChartModelConfig :=
  {| chartConfig := Some
       [ {| configKey := "default";
            dimensions :=
              {| key := "category"; columns := ColumnArray [region] |}
              :: map (fun c => {| key := SDK.name c; columns := ColumnArray [c] |})
                     measures |} ] |}.

Definition props : VisualProps :=
  {| numberFormat := Some "0.00";
     numOfLabels := Some (Fin 3 0);
     vpGradientColor0 := Some "#111111";
     vpGradientColor50 := Some "#222222";
     vpGradientColor100 := Some "#333333" |}.

Definition model (measures : list ChartColumn) (rows : list (list JS.value))
    (visualProps : option VisualProps) : ChartModel :=
  {| cmColumns := region :: measures;
     cmData := Some [ {| data := Some {| dataColumns := map id (region :: measures);
                                         dataValue := rows |} |} ];
     cmVisualProps := visualProps;
     cmConfig := Some (config measures) |}.

(** One category, two measures, well-formed rows. *)
Definition rows : list (list JS.value) :=
  [ [JStr "east"; JNum (Fin 10 0); JNum (Fin 1 0)];
    [JStr "west"; JNum (Fin 255 (-1)); JNum (Fin 2 0)];
    [JUndefined; JStr "7.5"; JNum (Fin 3 0)] ].
Definition twoMeasures : ChartModel := model [sales; profit] rows (Some props).

(** The same, with no value for the first measure of one row. *)
Definition rowsWithNull : list (list JS.value) :=
  [ [JStr "east"; JNull; JNum (Fin 1 0)];
    [JStr "west"; JNum (Fin 5 0); JNum (Fin 2 0)] ].
Definition nullMeasure : ChartModel :=
  model [sales; profit] rowsWithNull (Some props).

(** A row whose category is [null]. *)
Definition rowsWithNullCategory : list (list JS.value) :=
  [ [JNull; JNum (Fin 3 0); JNum (Fin 4 0)] ].
Definition nullCategory : ChartModel :=
  model [sales; profit] rowsWithNullCategory (Some props).

(** A single measure: rows have two entries. *)
Definition rowsOneMeasure : list (list JS.value) :=
  [ [JStr "east"; JNum (Fin 10 0)]; [JStr "west"; JNum (Fin 20 0)] ].
Definition oneMeasure : ChartModel := model [sales] rowsOneMeasure (Some props).

(** No category column in the configuration. *)
Definition noCategory : ChartModel :=
  {| cmColumns := [sales; profit];
     cmData := cmData twoMeasures;
     cmVisualProps := Some props;
     cmConfig := Some {| chartConfig := Some
       [ {| configKey := "default"; dimensions := [] |} ] |} |}.

(** Measure columns only: nothing to use as a category. *)
Definition measuresOnly : ChartModel :=
  {| cmColumns := [sales; profit];
     cmData := None;
     cmVisualProps := None;
     cmConfig := None |}.

(** Well-formed data, but the host sent no visual properties. *)
Definition noVisualProps : ChartModel := model [sales; profit] rows None.

(** No rows, and a number format chosen by the user. *)
Definition noRows : ChartModel := model [sales; profit] [] (Some props).

(** Visual properties that leave the first gradient colour out. *)
Definition propsWithoutColor0 : VisualProps :=
  {| numberFormat := Some "0.00";
     numOfLabels := Some (Fin 3 0);
     vpGradientColor0 := None;
     vpGradientColor50 := Some "#222222";
     vpGradientColor100 := Some "#333333" |}.
Definition withoutColor0 : ChartModel :=
  model [sales; profit] rows (Some propsWithoutColor0).

Definition otherColors : VisualProps :=
  {| numberFormat := Some "0.00";
     numOfLabels := Some (Fin 3 0);
     vpGradientColor0 := Some "#AAAAAA";
     vpGradientColor50 := Some "#BBBBBB";
     vpGradientColor100 := Some "#CCCCCC" |}.
Definition recolored : ChartModel := model [sales; profit] rows (Some otherColors).

Definition aClick : PointClickEvent :=
  {| evClientX := JNum (Fin 120 0); evClientY := JNum (Fin 80 0);
     pointPageX := JUndefined; pointPageY := JUndefined |}.

End Sample.

(** ** Vocabulary of the further properties *)

(** [a == b] on numbers: equal values, whatever their written exponent;
    false as soon as one side is [NaN]. *)
Definition sameNumber (a b : number) : bool := leb a b && leb b a.

(** The module-level variables a [render] pass on [cm] leaves, given the
    data model [dm] it computed. *)
Definition passGlobals (cm : ChartModel) (dm : DataModel) (g : Globals)
  : Globals :=
  match values dm, cmVisualProps cm with
  | _ :: _, Some vp => applyVisualProps vp g
  | _, _ => g
  end.

(** The conditions under which a [render] pass reaches [Highcharts.chart]. *)
Definition readyToMount (cm : ChartModel) (dm : DataModel) : Prop :=
  values dm <> [] /\
  (exists vp, cmVisualProps cm = Some vp) /\
  exists c m,
    dimensionColumn cm 0 = Some c /\ dimensionColumn cm 1 = Some m /\
    id c <> "" /\ id m <> "".

(** The columns a dimension holds, whichever shape it has. *)
Definition columnsOf (c : Columns) : list ChartColumn :=
  match c with
  | OneColumn x => [x]
  | ColumnArray xs => xs
  end.

(** Every dimension of the configuration holds an array of columns. *)
Definition allArrays (config : ChartConfig) : Prop :=
  Forall (fun d => exists cs, columns d = ColumnArray cs) (dimensions config).

(** The query a configuration with array dimensions stands for: all its
    columns, dimension after dimension. *)
Definition queryOf (config : ChartConfig) : Query :=
  {| queryColumns := List.concat (map (fun d => columnsOf (columns d))
                                 (dimensions config)) |}.

(** ** Further sample inputs *)

Module Sample2.

(** Two rows tie on the first measure; a third has a [null] category. *)
Definition tiedRows : list (list JS.value) :=
  [ [JStr "north"; JNum (Fin 7 0); JNum (Fin 1 0)];
    [JStr "east"; JNum (Fin 10 0); JNum (Fin 2 0)];
    [JStr "west"; JNum (Fin 100 (-1)); JNum (Fin 3 0)];
    [JStr "south"; JStr "10"; JNum (Fin 4 0)] ].
Definition tied : ChartModel :=
  Sample.model [Sample.sales; Sample.profit] tiedRows (Some Sample.props).

Definition mixedRows : list (list JS.value) :=
  [ [JStr "east"; JNum (Fin 10 0); JNum (Fin 1 0)];
    [JNull; JNum (Fin 3 0); JNum (Fin 4 0)];
    [JStr "west"; JNum (Fin 5 0); JNum (Fin 2 0)] ].
Definition mixed : ChartModel :=
  Sample.model [Sample.sales; Sample.profit] mixedRows (Some Sample.props).

(** Six measures and two attributes, as [getDefaultChartConfig] may see
    them. *)
Definition city : ChartColumn :=
  {| id := "col-city"; SDK.name := "City"; type := ATTRIBUTE |}.
Definition measure (n : string) : ChartColumn :=
  {| id := ("col-" ++ n)%string; SDK.name := n; type := MEASURE |}.
Definition wide : ChartModel :=
  {| cmColumns :=
       [ Sample.region; measure "m1"; city; measure "m2"; measure "m3";
         measure "m4"; measure "m5"; measure "m6" ];
     cmData := None;
     cmVisualProps := None;
     cmConfig := None |}.

(** A configuration as the editor schema shapes it: arrays throughout. *)
Definition arrayConfig : ChartConfig :=
  {| configKey := "default";
     dimensions :=
       [ {| key := "category"; columns := ColumnArray [Sample.region] |};
         {| key := "measure"; columns := ColumnArray [Sample.sales] |};
         {| key := "color axis"; columns := ColumnArray [Sample.profit] |};
         {| key := "Labels"; columns := ColumnArray [] |} ] |}.

(** The two-measure model of [Sample], configured by what
    [getDefaultChartConfig] returns for it. *)
Definition defaultConfigured : ChartModel :=
  {| cmColumns := cmColumns Sample.twoMeasures;
     cmData := cmData Sample.twoMeasures;
     cmVisualProps := cmVisualProps Sample.twoMeasures;
     cmConfig :=
       Some {| chartConfig :=
         match result (getDefaultChartConfig Sample.twoMeasures initialGlobals) with
         | Ok configs => Some configs
         | Throw _ => None
         end |} |}.

(** A chart library that rejects every options object. *)
Definition chartFails (_ : ChartOptions) : Result unit :=
  Throw (PlainError "Highcharts error #13").

End Sample2.

(* ------------------------------------------------------------------ *)
(** * Properties of the JavaScript fragment *)
(* ------------------------------------------------------------------ *)

Section NumberOrder.

Lemma scale_shift (m e lo L : Z) :
  L <= lo -> lo <= e -> scale m e L = scale m e lo * 10 ^ (lo - L).
Proof.
  intros HL Hlo. unfold scale.
  replace (e - L) with ((e - lo) + (lo - L)) by lia.
  rewrite Z.pow_add_r by lia. ring.
Qed.

(** Two finite numbers compare the same at every common exponent. *)
Lemma leb_Fin_at (m1 e1 m2 e2 L : Z) :
  L <= e1 -> L <= e2 ->
  leb (Fin m1 e1) (Fin m2 e2) = (scale m1 e1 L <=? scale m2 e2 L).
Proof.
  intros H1 H2. cbn [leb].
  rewrite (scale_shift m1 e1 (Z.min e1 e2) L) by lia.
  rewrite (scale_shift m2 e2 (Z.min e1 e2) L) by lia.
  assert (Hpos : 0 < 10 ^ (Z.min e1 e2 - L)) by (apply Z.pow_pos_nonneg; lia).
  destruct (Z.leb_spec (scale m1 e1 (Z.min e1 e2)) (scale m2 e2 (Z.min e1 e2)));
    symmetry; [apply Z.leb_le | apply Z.leb_gt]; nia.
Qed.

Lemma leb_not_NaN (a b : number) : leb a b = true -> a <> NaN /\ b <> NaN.
Proof. destruct a, b; cbn; intros H; split; congruence. Qed.

Lemma leb_refl (a : number) : a <> NaN -> leb a a = true.
Proof. destruct a; cbn; try congruence; intros _. apply Z.leb_refl. Qed.

Lemma leb_trans (a b c : number) :
  leb a b = true -> leb b c = true -> leb a c = true.
Proof.
  destruct a as [| | |m1 e1], b as [| | |m2 e2], c as [| | |m3 e3];
    cbn [leb]; try congruence.
  change (leb (Fin m1 e1) (Fin m2 e2) = true ->
          leb (Fin m2 e2) (Fin m3 e3) = true ->
          leb (Fin m1 e1) (Fin m3 e3) = true).
  set (L := Z.min e1 (Z.min e2 e3)).
  rewrite (leb_Fin_at m1 e1 m2 e2 L), (leb_Fin_at m2 e2 m3 e3 L),
    (leb_Fin_at m1 e1 m3 e3 L) by (subst L; lia).
  rewrite !Z.leb_le. lia.
Qed.

Lemma leb_total (a b : number) :
  a <> NaN -> b <> NaN -> leb a b = true \/ leb b a = true.
Proof.
  destruct a as [| | |m1 e1], b as [| | |m2 e2]; cbn [leb];
    try congruence; auto.
  intros _ _. rewrite (Z.min_comm e2 e1), !Z.leb_le. lia.
Qed.

(** The sign of a difference is the comparison of its operands; a
    difference of equal infinities is [NaN], which the sort reads as
    zero. *)
Lemma nonpos_sub (a b : number) :
  a <> NaN -> b <> NaN ->
  nonpos (if isNaN (sub a b) then Fin 0 0 else sub a b) = leb a b.
Proof.
  destruct a as [| | |m1 e1], b as [| | |m2 e2]; cbn; try congruence; auto.
  intros _ _.
  destruct (Z.leb_spec (scale m1 e1 (Z.min e1 e2)) (scale m2 e2 (Z.min e1 e2)));
    [apply Z.leb_le | apply Z.leb_gt]; lia.
Qed.

End NumberOrder.

(** ** The sort *)

Section SortFacts.
Context {A : Type} (comparefn : A -> A -> number).

Lemma insert_perm (x : A) (l : list A) :
  Permutation (insert comparefn x l) (x :: l).
Proof.
  induction l as [|y l IH]; cbn; [reflexivity|].
  destruct (nonpos (SortCompare comparefn x y)); [reflexivity|].
  rewrite IH. apply perm_swap.
Qed.

(** [sort] rearranges; it neither drops nor duplicates an element. *)
Lemma sort_perm (l : list A) : Permutation (sort comparefn l) l.
Proof.
  induction l as [|x l IH]; cbn; [reflexivity|].
  rewrite insert_perm. now constructor.
Qed.

(** With an order [R] that the comparator decides on the elements
    satisfying [P], the result is sorted. *)
Context (R : A -> A -> Prop) (P : A -> Prop).
Hypothesis comparefn_le :
  forall x y, P x -> P y -> nonpos (SortCompare comparefn x y) = true -> R x y.
Hypothesis comparefn_gt :
  forall x y, P x -> P y -> nonpos (SortCompare comparefn x y) = false -> R y x.

Lemma insert_HdRel (a x : A) (l : list A) :
  R a x -> HdRel R a l -> HdRel R a (insert comparefn x l).
Proof.
  intros Hax Hl. destruct l as [|y l]; cbn; [now constructor|].
  destruct (nonpos (SortCompare comparefn x y)); constructor; auto.
  now inversion Hl.
Qed.

Lemma insert_sorted (x : A) (l : list A) :
  P x -> Forall P l -> Sorted R l -> Sorted R (insert comparefn x l).
Proof.
  intros Hx HP Hs. induction Hs as [|y l Hs IH Hd]; cbn.
  - repeat constructor.
  - inversion HP as [|? ? Hy HPl]; subst.
    destruct (nonpos (SortCompare comparefn x y)) eqn:Hc.
    + constructor; [now constructor|]. constructor. now apply comparefn_le.
    + constructor; [now apply IH|].
      apply insert_HdRel; [now apply comparefn_gt | assumption].
Qed.

Lemma sort_sorted (l : list A) : Forall P l -> Sorted R (sort comparefn l).
Proof.
  induction l as [|x l IH]; intros HP; cbn; [constructor|].
  inversion HP as [|? ? Hx HPl]; subst.
  apply insert_sorted; auto.
  eapply Permutation_Forall; [symmetry; apply sort_perm | assumption].
Qed.

End SortFacts.

(* ------------------------------------------------------------------ *)
(** * Properties of [getDataModel] *)
(* ------------------------------------------------------------------ *)

Lemma descending_trans (a b c : TreemapPoint) :
  descending a b -> descending b c -> descending a c.
Proof.
  unfold descending, geb. intros Hab Hbc. exact (leb_trans _ _ _ Hbc Hab).
Qed.

(** For points whose value is a number, the comparator decides
    [descending]. *)
Lemma sort_points_sorted (pts : list TreemapPoint) :
  Forall (fun p => value p <> NaN) pts ->
  StronglySorted descending (sort byValueDescending pts).
Proof.
  intros HP. apply Sorted_StronglySorted.
  - intros a b c. apply descending_trans.
  - apply (sort_sorted byValueDescending descending (fun p => value p <> NaN));
      [| | assumption]; intros x y Hx Hy; unfold SortCompare, byValueDescending;
      rewrite (nonpos_sub (value y) (value x)) by assumption;
      unfold descending, geb; intros Hc; [assumption|].
    destruct (leb_total (value y) (value x)); congruence.
Qed.

Lemma mapResult_Forall2 {A B} (f : A -> Result B) (l : list A) (ys : list B) :
  mapResult f l = Ok ys -> Forall2 (fun x y => f x = Ok y) l ys.
Proof.
  revert ys. induction l as [|x l IH]; cbn; intros ys H.
  - injection H as <-. constructor.
  - destruct (f x) as [y|] eqn:Hx; [|discriminate].
    destruct (mapResult f l) as [ys'|]; [|discriminate].
    injection H as <-. constructor; auto.
Qed.

Lemma mapResult_Ok {A B} (f : A -> Result B) (l : list A) :
  (forall x, In x l -> exists y, f x = Ok y) -> exists ys, mapResult f l = Ok ys.
Proof.
  induction l as [|x l IH]; cbn; intros H; [eauto|].
  destruct (H x) as [y ->]; [now left|].
  destruct IH as [ys ->]; eauto.
Qed.

Lemma Forall2_In_l {A B} (R : A -> B -> Prop) (l : list A) (l' : list B) (x : A) :
  Forall2 R l l' -> In x l -> exists y, In y l' /\ R x y.
Proof.
  induction 1 as [|a b l l' Hab _ IH]; cbn; [tauto|].
  intros [<-|Hin]; [eauto|]. destruct (IH Hin) as (y & ? & ?); eauto.
Qed.

Lemma Forall2_In_r {A B} (R : A -> B -> Prop) (l : list A) (l' : list B) (y : B) :
  Forall2 R l l' -> In y l' -> exists x, In x l /\ R x y.
Proof.
  induction 1 as [|a b l l' Hab _ IH]; cbn; [tauto|].
  intros [<-|Hin]; [eauto|]. destruct (IH Hin) as (x & ? & ?); eauto.
Qed.

(** What the row callback builds, when it returns. *)
Lemma rowToPoint_Ok (measureCols : list ChartColumn) (row : list JS.value)
    (p : TreemapPoint) :
  rowToPoint measureCols row = Ok p ->
  index row 0 <> JNull /\
  name p = expectedName row /\
  value p = parseFloat (index row 1) /\
  colorValue p = parseFloat (index row 2).
Proof.
  unfold rowToPoint, expectedName.
  destruct (index row 0) eqn:H0; cbn; intros H; try discriminate;
    injection H as <-; cbn; repeat split; congruence.
Qed.

(** The callback throws on a [null] category and on nothing else. *)
Lemma rowToPoint_returns (measureCols : list ChartColumn) (row : list JS.value) :
  index row 0 <> JNull -> exists p, rowToPoint measureCols row = Ok p.
Proof.
  unfold rowToPoint. destruct (index row 0); cbn; intros H; try congruence; eauto.
Qed.

Lemma firstColumnOf_nil (i : nat) : firstColumnOf [] i = None.
Proof. unfold firstColumnOf. now destruct i. Qed.

(** [getDataModel] and [render] find the same column in a dimension, when
    the former gets as far as looking. *)
Lemma configDimensions_column (cm : ChartModel) (dims : list ChartConfigDimension)
    (i : nat) :
  configDimensionsOf cm = Ok dims -> firstColumnOf dims i = dimensionColumn cm i.
Proof.
  unfold configDimensionsOf, dimensionColumn.
  destruct (cmConfig cm) as [config|];
    [destruct (chartConfig config) as [[|c l]|]|]; intros H;
    try discriminate; injection H as <-; auto using firstColumnOf_nil.
Qed.

Lemma dimensionColumn_Some (cm : ChartModel) (i : nat) (c : ChartColumn) :
  dimensionColumn cm i = Some c ->
  exists dims, configDimensionsOf cm = Ok dims /\ firstColumnOf dims i = Some c.
Proof.
  unfold configDimensionsOf, dimensionColumn.
  destruct (cmConfig cm) as [config|];
    [destruct (chartConfig config) as [[|c' l]|]|]; intros H;
    try discriminate; eauto.
Qed.

(** Every run of [getDataModel] returns, leaves the module-level variables
    alone, emits nothing to the host, and yields either no point or the
    sorted image of all the rows. *)
Lemma getDataModel_run (cm : ChartModel) (g : Globals) :
  exists dm t,
    getDataModel cm g = (Ok dm, g, t) /\
    chartCalls t = [] /\ emitted t = [] /\
    (values dm = [] \/
     exists cat dataArr pts,
       dimensionColumn cm 0 = Some cat /\
       dataArrOf cm = Some dataArr /\
       filter isMeasure (cmColumns cm) <> [] /\
       mapResult (rowToPoint (filter isMeasure (cmColumns cm)))
                 (dataValue dataArr) = Ok pts /\
       values dm = sort byValueDescending pts).
Proof.
  unfold getDataModel, bind, tryCatch, lift, consoleLog, consoleError, effect, ret.
  destruct (configDimensionsOf cm) as [dims|err] eqn:Hd; cbn.
  2: { do 2 eexists. repeat split; auto. }
  destruct (dataArrOf cm) as [dataArr|] eqn:Ha; cbn.
  2: { do 2 eexists. repeat split; auto. }
  destruct (firstColumnOf dims 0) as [cat|] eqn:Hc; cbn.
  2: { do 2 eexists. repeat split; auto. }
  destruct (filter isMeasure (cmColumns cm)) as [|m ms] eqn:Hm; cbn.
  { do 2 eexists. repeat split; auto. }
  destruct (mapResult (rowToPoint (m :: ms)) (dataValue dataArr)) as [pts|err]
    eqn:Hp; cbn.
  2: { do 2 eexists. repeat split; auto. }
  do 2 eexists. repeat split; auto. right.
  exists cat, dataArr, pts. rewrite <- (configDimensions_column cm dims 0 Hd).
  repeat split; auto. discriminate.
Qed.

(** When the guards pass and no category is [null], the points are the
    sorted image of the rows. *)
Lemma getDataModel_success (cm : ChartModel) (g : Globals) (cat : ChartColumn)
    (dataArr : DataPointsArray) :
  dimensionColumn cm 0 = Some cat ->
  dataArrOf cm = Some dataArr ->
  filter isMeasure (cmColumns cm) <> [] ->
  (forall row, In row (dataValue dataArr) -> index row 0 <> JNull) ->
  exists pts,
    mapResult (rowToPoint (filter isMeasure (cmColumns cm)))
              (dataValue dataArr) = Ok pts /\
    getDataModel cm g =
      (Ok {| values := sort byValueDescending pts;
             categoryName := Some (SDK.name cat);
             measureColumns :=
               Some (map SDK.name (filter isMeasure (cmColumns cm))) |},
       g, [getDataModelLog]).
Proof.
  intros Hcat Ha Hm Hrows.
  destruct (dimensionColumn_Some cm 0 cat Hcat) as (dims & Hd & Hc).
  destruct (mapResult_Ok (rowToPoint (filter isMeasure (cmColumns cm)))
              (dataValue dataArr)) as [pts Hp].
  { intros row Hin. apply rowToPoint_returns. auto. }
  exists pts. split; [assumption|].
  unfold getDataModel, bind, tryCatch, lift, consoleLog, consoleError, effect, ret.
  rewrite Hd; cbn. rewrite Ha; cbn. rewrite Hc; cbn.
  destruct (filter isMeasure (cmColumns cm)) as [|m ms] eqn:Hf; [congruence|].
  cbn. rewrite Hp. reflexivity.
Qed.

(* ------------------------------------------------------------------ *)
(** * Properties of [render] and [renderChart] *)
(* ------------------------------------------------------------------ *)

Lemma chartCalls_app (a b : list Effect) :
  chartCalls (a ++ b) = chartCalls a ++ chartCalls b.
Proof.
  induction a as [|e a IH]; cbn; [reflexivity|].
  destruct e; cbn; congruence.
Qed.

Lemma emitted_app (a b : list Effect) : emitted (a ++ b) = emitted a ++ emitted b.
Proof.
  induction a as [|e a IH]; cbn; [reflexivity|].
  destruct e; cbn; congruence.
Qed.

Lemma errorsLogged_app (a b : list Effect) :
  errorsLogged (a ++ b) = errorsLogged a ++ errorsLogged b.
Proof.
  induction a as [|e a IH]; cbn; [reflexivity|].
  destruct e; cbn; congruence.
Qed.

Lemma missing_false (s : option string) :
  missing s = false -> exists x, s = Some x.
Proof. destruct s; cbn; [eauto | discriminate]. Qed.

(** The paths of [render] on a chart model, by what stops it: no point, no
    visual properties, a missing column id, or nothing, in which case the
    chart library is called once. *)
Lemma render_cases (hc : ChartOptions -> Result unit) (cm : ChartModel)
    (g : Globals) :
  exists dm t,
    getDataModel cm g = (Ok dm, g, t) /\
    let entry := ConsoleLog "Rendering the chart..." in
    ((values dm = [] /\
      render hc (contextOf cm) g =
        (Ok tt, g, entry :: t ++ [ConsoleError "No valid data to render."]))
     \/
     (values dm <> [] /\ cmVisualProps cm = None /\
      render hc (contextOf cm) g =
        (Ok tt, g, entry :: t ++ [ConsoleError "Render failed: "]))
     \/
     (values dm <> [] /\
      exists vp, cmVisualProps cm = Some vp /\
        ((missing (option_map id (dimensionColumn cm 0))
          || missing (option_map id (dimensionColumn cm 1)) = true /\
          render hc (contextOf cm) g =
            (Ok tt, applyVisualProps vp g,
             entry :: t ++
             [ConsoleError
                "Invalid configuration: Missing category or measure columns."]))
         \/
         (exists c m,
            dimensionColumn cm 0 = Some c /\ dimensionColumn cm 1 = Some m /\
            let o := chartOptions dm (applyVisualProps vp g) (id c) (id m)
                       (option_map SDK.name (dimensionColumn cm 2)) in
            render hc (contextOf cm) g =
              (Ok tt, applyVisualProps vp g,
               entry :: t ++ HighchartsChart o ::
               match hc o with
               | Ok _ => []
               | Throw _ => [ConsoleError "Render failed: "]
               end))))).
Proof.
  destruct (getDataModel_run cm g) as (dm & t & Hrun & _).
  exists dm, t. split; [assumption|]. cbv zeta.
  unfold render, contextOf. run_monad. cbn -[getDataModel].
  rewrite Hrun. cbn -[getDataModel].
  destruct (values dm) as [|p ps] eqn:Hv; cbn.
  { left. rewrite ?app_nil_r. auto. }
  right. destruct (cmVisualProps cm) as [vp|] eqn:Hvp; cbn.
  2: { left. rewrite ?app_nil_r. repeat split; auto; discriminate. }
  right. split; [discriminate|]. exists vp. split; [reflexivity|].
  destruct (missing (option_map id (dimensionColumn cm 0))
            || missing (option_map id (dimensionColumn cm 1))) eqn:Hmiss; cbn.
  { left. rewrite ?app_nil_r. auto. }
  right. apply orb_false_iff in Hmiss as [H0 H1].
  destruct (dimensionColumn cm 0) as [c|]; [|discriminate].
  destruct (dimensionColumn cm 1) as [m|]; [|discriminate].
  exists c, m. repeat split. cbn.
  destruct (hc _) as [[]|]; cbn; rewrite ?app_nil_r, <- ?app_assoc; reflexivity.
Qed.

(** [render] returns normally whatever the context and the chart library
    do, emits no host event, and either calls the chart library exactly once
    with success or logs an error. *)
Lemma render_total (hc : ChartOptions -> Result unit) (ctx : CustomChartContext)
    (g : Globals) :
  exists g' t,
    render hc ctx g = (Ok tt, g', t) /\
    emitted t = [] /\
    ((exists o, chartCalls t = [o] /\ hc o = Ok tt) \/ errorsLogged t <> []).
Proof.
  destruct ctx as [[[cm|]|err]].
  - destruct (getDataModel_run cm g) as (dm0 & t0 & Hrun0 & Hc & He & _).
    destruct (render_cases hc cm g) as (dm & t & Hrun & Hcases).
    rewrite Hrun0 in Hrun. injection Hrun as <- <-.
    change (contextOf cm) with {| getChartModel := Ok (Some cm) |} in Hcases.
    cbv zeta in Hcases.
    destruct Hcases as [(_ & ->)|[(_ & _ & ->)|(_ & vp & _ & [(_ & ->)|Hm])]].
    + do 2 eexists. split; [reflexivity|]. cbn.
      rewrite emitted_app, errorsLogged_app, He. cbn. split; [reflexivity|].
      right. intros H. apply app_eq_nil in H as [_ H]. discriminate.
    + do 2 eexists. split; [reflexivity|]. cbn.
      rewrite emitted_app, errorsLogged_app, He. cbn. split; [reflexivity|].
      right. intros H. apply app_eq_nil in H as [_ H]. discriminate.
    + do 2 eexists. split; [reflexivity|]. cbn.
      rewrite emitted_app, errorsLogged_app, He. cbn. split; [reflexivity|].
      right. intros H. apply app_eq_nil in H as [_ H]. discriminate.
    + destruct Hm as (c & m & _ & _ & ->).
      do 2 eexists. split; [reflexivity|]. cbn.
      rewrite emitted_app, errorsLogged_app, chartCalls_app, He, Hc. cbn.
      destruct (hc _) eqn:Hhc; cbn.
      * split; [reflexivity|]. left. destruct a. eauto.
      * split; [reflexivity|]. right. intros H.
        apply app_eq_nil in H as [_ H]. discriminate.
  - do 2 eexists. split; [reflexivity|]. cbn. split; [reflexivity|].
    right. discriminate.
  - do 2 eexists. split; [reflexivity|]. cbn. split; [reflexivity|].
    right. discriminate.
Qed.

(** [renderChart] wraps the effects of [render] between the two lifecycle
    events and returns normally. *)
Lemma renderChart_run (hc : ChartOptions -> Result unit) (ctx : CustomChartContext)
    (g : Globals) :
  exists g' t,
    render hc ctx g = (Ok tt, g', t) /\
    renderChart hc ctx g =
      (Ok tt, g',
       ConsoleLog "Starting chart rendering process..." ::
       EmitEvent RenderStart :: t ++ [EmitEvent RenderComplete]).
Proof.
  destruct (render_total hc ctx g) as (g' & t & Hr & _).
  exists g', t. split; [assumption|].
  unfold renderChart. run_monad. cbn -[render]. rewrite Hr. reflexivity.
Qed.

(** The host events of a [renderChart] invocation are always the same
    two. *)
Lemma renderChart_events (hc : ChartOptions -> Result unit)
    (ctx : CustomChartContext) (g : Globals) :
  emitted (effects (renderChart hc ctx g)) = [RenderStart; RenderComplete].
Proof.
  destruct (render_total hc ctx g) as (g' & t & Hr & He & _).
  destruct (renderChart_run hc ctx g) as (g1 & t1 & Hr1 & ->).
  rewrite Hr in Hr1. injection Hr1 as <- <-.
  cbn. rewrite emitted_app, He. reflexivity.
Qed.

(* ------------------------------------------------------------------ *)
(** * The reshaped points *)
(* ------------------------------------------------------------------ *)

(** When the guards pass and no category is [null], the points are a
    rearrangement of the row images, row by row. *)
Lemma getDataModel_points (cm : ChartModel) (g : Globals) (cat : ChartColumn)
    (dataArr : DataPointsArray) :
  dimensionColumn cm 0 = Some cat ->
  dataArrOf cm = Some dataArr ->
  filter isMeasure (cmColumns cm) <> [] ->
  (forall row, In row (dataValue dataArr) -> index row 0 <> JNull) ->
  exists dm pts,
    result (getDataModel cm g) = Ok dm /\
    Permutation (values dm) pts /\
    Forall2 (fun row p =>
               rowToPoint (filter isMeasure (cmColumns cm)) row = Ok p)
            (dataValue dataArr) pts.
Proof.
  intros Hcat Ha Hm Hrows.
  destruct (getDataModel_success cm g cat dataArr Hcat Ha Hm Hrows)
    as (pts & Hp & Hrun).
  eexists; exists pts. rewrite Hrun. split; [reflexivity|]. cbn. split.
  - apply sort_perm.
  - now apply mapResult_Forall2.
Qed.

(** C1, as stated, fails: with a [null] first measure in one row the two
    points come back with a [NaN] value among them, and no arrangement of
    them is in descending order of value. *)
Lemma getDataModel_null_measure_not_descending :
  exists dm,
    result (getDataModel Sample.nullMeasure initialGlobals) = Ok dm /\
    map value (values dm) = [NaN; Fin 5 0] /\
    forall l, Permutation (values dm) l -> ~ Sorted descending l.
Proof.
  eexists. split; [reflexivity|]. split; [reflexivity|].
  intros l Hp. cbn in Hp.
  apply Permutation_length_2_inv in Hp as [-> | ->]; intros Hs;
    inversion Hs as [|? ? _ Hd]; subst; inversion Hd as [|? ? Hab]; subst;
    discriminate Hab.
Qed.

(** C1, amended: when the first measure of every row parses to a number,
    [getDataModel] returns a point list in descending order of [value]. *)
Theorem getDataModel_sorted_descending (cm : ChartModel) (g : Globals) :
  (forall row, In row (rowsOf cm) -> parseFloat (index row 1) <> NaN) ->
  exists dm,
    result (getDataModel cm g) = Ok dm /\
    StronglySorted descending (values dm).
Proof.
  intros Hnum.
  destruct (getDataModel_run cm g) as (dm & t & Hrun & _ & _ & Hv).
  exists dm. rewrite Hrun. split; [reflexivity|].
  destruct Hv as [-> | (cat & dataArr & pts & _ & Ha & _ & Hmap & ->)];
    [constructor|].
  apply sort_points_sorted. apply Forall_forall. intros p Hin.
  destruct (Forall2_In_r _ _ _ p (mapResult_Forall2 _ _ _ Hmap) Hin)
    as (row & Hrow & Hp).
  apply rowToPoint_Ok in Hp as (_ & _ & -> & _).
  apply Hnum. unfold rowsOf. now rewrite Ha.
Qed.

Lemma getDataModel_sorted_descending_witness :
  (forall row, In row (rowsOf Sample.twoMeasures) ->
               parseFloat (index row 1) <> NaN) /\
  exists dm,
    result (getDataModel Sample.twoMeasures initialGlobals) = Ok dm /\
    StronglySorted descending (values dm).
Proof.
  assert (H : forall row, In row (rowsOf Sample.twoMeasures) ->
                          parseFloat (index row 1) <> NaN).
  { intros row Hin. cbn in Hin.
    destruct Hin as [<-|[<-|[<-|[]]]]; cbn; discriminate. }
  split; [exact H|].
  exact (getDataModel_sorted_descending Sample.twoMeasures initialGlobals H).
Defined.

(** C2: when the configuration has no category column, or the model has no
    measure column, [getDataModel] returns an empty point list and [render]
    returns without calling [Highcharts.chart]. *)
Theorem missing_columns_no_chart (hc : ChartOptions -> Result unit)
    (cm : ChartModel) (g : Globals) :
  dimensionColumn cm 0 = None \/ filter isMeasure (cmColumns cm) = [] ->
  (exists dm, result (getDataModel cm g) = Ok dm /\ values dm = []) /\
  result (render hc (contextOf cm) g) = Ok tt /\
  chartCalls (effects (render hc (contextOf cm) g)) = [].
Proof.
  intros Habsent.
  destruct (getDataModel_run cm g) as (dm0 & t0 & Hrun0 & Hc & _ & Hv).
  assert (Hnil : values dm0 = []).
  { destruct Hv as [Hv | (cat & dataArr & pts & Hcat & _ & Hm & _)]; [assumption|].
    destruct Habsent; congruence. }
  split; [exists dm0; rewrite Hrun0; auto|].
  destruct (render_cases hc cm g) as (dm & t & Hrun & Hcases).
  rewrite Hrun0 in Hrun. injection Hrun as <- <-. cbv zeta in Hcases.
  destruct Hcases as [(_ & ->)|[(Hne & _)|(Hne & _)]]; try congruence.
  cbn. rewrite chartCalls_app, Hc. auto.
Qed.

Lemma missing_columns_no_chart_witness :
  (dimensionColumn Sample.noCategory 0 = None \/
   filter isMeasure (cmColumns Sample.noCategory) = []) /\
  (exists dm,
     result (getDataModel Sample.noCategory initialGlobals) = Ok dm /\
     values dm = []) /\
  result (render chartOk (contextOf Sample.noCategory) initialGlobals) = Ok tt /\
  chartCalls
    (effects (render chartOk (contextOf Sample.noCategory) initialGlobals)) = [].
Proof.
  assert (H : dimensionColumn Sample.noCategory 0 = None \/
              filter isMeasure (cmColumns Sample.noCategory) = [])
    by (left; reflexivity).
  split; [exact H|].
  exact (missing_columns_no_chart chartOk Sample.noCategory initialGlobals H).
Defined.


(** X15: when the guards pass and no row has a [null] category, the colour
    value of every point is parsed from index 2 of its row, whatever the
    number of measure columns; a row with fewer than three entries gives
    [NaN]. *)
Theorem colorValue_read_at_index_2 (cm : ChartModel) (g : Globals)
    (cat : ChartColumn) (dataArr : DataPointsArray) :
  dimensionColumn cm 0 = Some cat ->
  dataArrOf cm = Some dataArr ->
  filter isMeasure (cmColumns cm) <> [] ->
  (forall row, In row (dataValue dataArr) -> index row 0 <> JNull) ->
  exists dm pts,
    result (getDataModel cm g) = Ok dm /\
    Permutation (values dm) pts /\
    Forall2 (fun row p =>
               colorValue p = parseFloat (index row 2) /\
               ((List.length row <= 2)%nat -> colorValue p = NaN))
            (dataValue dataArr) pts.
Proof.
  intros Hcat Ha Hm Hrows.
  destruct (getDataModel_points cm g cat dataArr Hcat Ha Hm Hrows)
    as (dm & pts & Hres & Hperm & Hall).
  exists dm, pts. repeat split; auto.
  eapply Forall2_impl; [|exact Hall]. cbn. intros row p Hp.
  apply rowToPoint_Ok in Hp as (_ & _ & _ & ->). split; [reflexivity|].
  intros Hlen. unfold index. now rewrite nth_overflow.
Qed.

Lemma colorValue_read_at_index_2_witness :
  exists dm,
    result (getDataModel Sample.oneMeasure initialGlobals) = Ok dm /\
    map colorValue (values dm) = [NaN; NaN] /\
    exists pts,
      Permutation (values dm) pts /\
      Forall2 (fun row p =>
                 colorValue p = parseFloat (index row 2) /\
                 ((List.length row <= 2)%nat -> colorValue p = NaN))
              Sample.rowsOneMeasure pts.
Proof.
  destruct (colorValue_read_at_index_2 Sample.oneMeasure initialGlobals
              Sample.region
              {| dataColumns := ["col-region"; "col-sales"];
                 dataValue := Sample.rowsOneMeasure |})
    as (dm & pts & Hres & Hperm & Hall).
  - reflexivity.
  - reflexivity.
  - discriminate.
  - intros row Hin. cbn in Hin. destruct Hin as [<-|[<-|[]]]; discriminate.
  - exists dm. split; [exact Hres|]. split.
    + cbn in Hres. injection Hres as <-. reflexivity.
    + exists pts. split; assumption.
Defined.

(** C10, on the failing input: a row whose category is [null] is not an
    [undefined]-category row, its string conversion is ["null"], yet the
    callback throws on it and [getDataModel] returns no point at all. *)
Lemma null_category_yields_no_point :
  let row := [JNull; JNum (Fin 3 0); JNum (Fin 4 0)] in
  In row (rowsOf Sample.nullCategory) /\
  index row 0 <> JUndefined /\
  expectedName row = "null" /\
  (exists err, rowToPoint [Sample.sales; Sample.profit] row = Throw err) /\
  exists dm,
    result (getDataModel Sample.nullCategory initialGlobals) = Ok dm /\
    values dm = [].
Proof.
  cbn. repeat split; try discriminate; eauto.
Qed.

(** X16: when the guards pass and no row has a [null] category, the points
    are, up to the sort, the images of the rows; the point of a row whose
    category is [undefined] is named ['Unnamed'] and the point of any other
    row is named by the string conversion of its category. *)
Theorem point_names (cm : ChartModel) (g : Globals) (cat : ChartColumn)
    (dataArr : DataPointsArray) :
  dimensionColumn cm 0 = Some cat ->
  dataArrOf cm = Some dataArr ->
  filter isMeasure (cmColumns cm) <> [] ->
  (forall row, In row (dataValue dataArr) -> index row 0 <> JNull) ->
  exists dm pts,
    result (getDataModel cm g) = Ok dm /\
    Permutation (values dm) pts /\
    Forall2 (fun row p =>
               name p = match index row 0 with
                        | JUndefined => "Unnamed"
                        | v => ToString v
                        end)
            (dataValue dataArr) pts.
Proof.
  intros Hcat Ha Hm Hrows.
  destruct (getDataModel_points cm g cat dataArr Hcat Ha Hm Hrows)
    as (dm & pts & Hres & Hperm & Hall).
  exists dm, pts. repeat split; auto.
  eapply Forall2_impl; [|exact Hall]. cbn. intros row p Hp.
  now apply rowToPoint_Ok in Hp as (_ & -> & _).
Qed.

Lemma point_names_witness :
  exists dm,
    result (getDataModel Sample.twoMeasures initialGlobals) = Ok dm /\
    map name (values dm) = ["west"; "east"; "Unnamed"] /\
    exists pts,
      Permutation (values dm) pts /\
      Forall2 (fun row p =>
                 name p = match index row 0 with
                          | JUndefined => "Unnamed"
                          | v => ToString v
                          end)
              Sample.rows pts.
Proof.
  destruct (point_names Sample.twoMeasures initialGlobals Sample.region
              {| dataColumns := ["col-region"; "col-sales"; "col-profit"];
                 dataValue := Sample.rows |})
    as (dm & pts & Hres & Hperm & Hall).
  - reflexivity.
  - reflexivity.
  - discriminate.
  - intros row Hin. cbn in Hin. destruct Hin as [<-|[<-|[<-|[]]]]; discriminate.
  - exists dm. split; [exact Hres|]. split.
    + cbn in Hres. injection Hres as <-. reflexivity.
    + exists pts. split; assumption.
Defined.

(* ------------------------------------------------------------------ *)
(** * Failures and lifecycle events *)
(* ------------------------------------------------------------------ *)

(** C3, as stated, fails: [getDefaultChartConfig] is a registered operation
    and throws to its caller, with nothing caught and nothing logged through
    [console.error], when the model has no attribute column. *)
Lemma getDefaultChartConfig_throws :
  result (getDefaultChartConfig Sample.measuresOnly initialGlobals) =
    Throw (PlainError
      "Invalid chart configuration: Missing required attribute or measure columns.") /\
  errorsLogged (effects (getDefaultChartConfig Sample.measuresOnly initialGlobals))
    = [].
Proof. split; reflexivity. Qed.

(** X13: the default configuration stores single column objects in its
    first dimensions, and [getQueriesFromChartConfig], which spreads each
    dimension's [columns], throws on whatever [getDefaultChartConfig]
    returns. *)
Lemma getQueriesFromChartConfig_default_config (cm : ChartModel) (g : Globals)
    (configs : list ChartConfig) :
  result (getDefaultChartConfig cm g) = Ok configs ->
  exists err, getQueriesFromChartConfig configs = Throw err.
Proof.
  unfold getDefaultChartConfig. run_monad. cbn.
  destruct (filter isAttribute (cmColumns cm)) as [|a attrs]; cbn;
    [discriminate|].
  destruct (filter isMeasure (cmColumns cm)) as [|m ms]; cbn; [discriminate|].
  intros H. injection H as <-. cbn. eauto.
Qed.

(** C3, amended: every failure inside [getDataModel], [render] and
    [renderChart] is caught there: the three return normally for every
    input, and a [render] pass that does not mount the chart logs an error.
    [getDefaultChartConfig] returns normally exactly when the model has an
    attribute column and a measure column, and throws otherwise. *)
Theorem render_failures_caught (hc : ChartOptions -> Result unit)
    (ctx : CustomChartContext) (cm : ChartModel) (g : Globals) :
  (exists dm, result (getDataModel cm g) = Ok dm) /\
  result (render hc ctx g) = Ok tt /\
  result (renderChart hc ctx g) = Ok tt /\
  ((exists o, chartCalls (effects (render hc ctx g)) = [o] /\ hc o = Ok tt) \/
   (exists msg rest, errorsLogged (effects (render hc ctx g)) = msg :: rest)) /\
  isOk (result (getDefaultChartConfig cm g)) =
    negb ((List.length (filter isAttribute (cmColumns cm)) =? 0)%nat
          || (List.length (filter isMeasure (cmColumns cm)) =? 0)%nat).
Proof.
  split.
  { destruct (getDataModel_run cm g) as (dm & t & -> & _).
    eexists; reflexivity. }
  destruct (render_total hc ctx g) as (g' & t & Hr & _ & Hlog).
  destruct (renderChart_run hc ctx g) as (g1 & t1 & _ & Hrc).
  rewrite Hr, Hrc. cbn. repeat split; auto.
  - destruct Hlog as [Hm | Hne]; [now left | right].
    destruct (errorsLogged t) as [|msg rest]; [congruence | eauto].
  - unfold getDefaultChartConfig. run_monad. cbn.
    destruct (_ || _); reflexivity.
Qed.

(** C4, on the failing input: the model is well formed but carries no visual
    properties, so [render] fails with a [TypeError]; [render] itself
    swallows it, and [renderChart] emits [RenderStart] and [RenderComplete]
    and no [RenderError]. *)
Theorem renderChart_swallows_render_failure :
  let run := renderChart chartOk (contextOf Sample.noVisualProps) initialGlobals in
  result run = Ok tt /\
  emitted (effects run) = [RenderStart; RenderComplete] /\
  errorsLogged (effects run) = ["Render failed: "] /\
  chartCalls (effects run) = [].
Proof. cbv zeta. repeat split; reflexivity. Qed.

(* ------------------------------------------------------------------ *)
(** * Number formatting *)
(* ------------------------------------------------------------------ *)

(** C5: [numberFormatter(1500, '0.0')] is ["1.5K"] and
    [numberFormatter(2000000, '0.0')] is ["2.0M"]. *)
Theorem numberFormatter_examples :
  numberFormatter (Fin 1500 0) "0.0" = Some "1.5K" /\
  numberFormatter (Fin 2000000 0) "0.0" = Some "2.0M".
Proof. split; reflexivity. Qed.

(* ------------------------------------------------------------------ *)
(** * Point clicks *)
(* ------------------------------------------------------------------ *)

Lemma click_run (categoryColumn measureColumn : string) (p : TreemapPoint)
    (e : PointClickEvent) (g : Globals) :
  click categoryColumn measureColumn p e g =
    (Ok tt, g,
     [ ConsoleLog "Point click event triggered";
       ConsoleLog "Clicked Point Details: ";
       ConsoleLog "Extracting clientX and clientY from event: ";
       EmitEvent (OpenContextMenu
         {| event := {| clientX := orElse (evClientX e) (pointPageX e);
                        clientY := orElse (evClientY e) (pointPageY e) |};
            clickedPoint :=
              [ {| columnId := categoryColumn; tupleValue := JStr (name p) |};
                {| columnId := measureColumn; tupleValue := JNum (value p) |} ];
            customActions := contextMenuActions |}) ]).
Proof. reflexivity. Qed.

(** The options of a chart call carry the ids of the first columns of the
    category and measure dimensions. *)
Lemma render_chart_call (hc : ChartOptions -> Result unit) (cm : ChartModel)
    (g : Globals) (o : ChartOptions) :
  In o (chartCalls (effects (render hc (contextOf cm) g))) ->
  exists dm t vp c m,
    getDataModel cm g = (Ok dm, g, t) /\
    cmVisualProps cm = Some vp /\
    dimensionColumn cm 0 = Some c /\ dimensionColumn cm 1 = Some m /\
    o = chartOptions dm (applyVisualProps vp g) (id c) (id m)
          (option_map SDK.name (dimensionColumn cm 2)).
Proof.
  destruct (getDataModel_run cm g) as (dm0 & t0 & Hrun0 & Hc & _).
  destruct (render_cases hc cm g) as (dm & t & Hrun & Hcases).
  rewrite Hrun0 in Hrun. injection Hrun as <- <-. cbv zeta in Hcases.
  intros Hin.
  destruct Hcases as [(_ & Hr)|[(_ & _ & Hr)|(_ & vp & Hvp & [(_ & Hr)|Hm])]];
    try (rewrite Hr in Hin; cbn in Hin; rewrite chartCalls_app, Hc in Hin;
         cbn in Hin; tauto).
  destruct Hm as (c & m & H0 & H1 & Hr).
  rewrite Hr in Hin. cbn in Hin. rewrite chartCalls_app, Hc in Hin. cbn in Hin.
  exists dm0, t0, vp, c, m.
  assert (Ho : chartOptions dm0 (applyVisualProps vp g) (id c) (id m)
                 (option_map SDK.name (dimensionColumn cm 2)) = o).
  { destruct (hc _); cbn in Hin; tauto. }
  auto.
Qed.

(** C6: on a mounted chart, a click on any point emits exactly one host
    event, an [OpenContextMenu] whose tuple pairs the id of the category
    column with the point's name and the id of the measure column with the
    point's value. *)
Theorem point_click_emits_one_OpenContextMenu (hc : ChartOptions -> Result unit)
    (cm : ChartModel) (g : Globals) (o : ChartOptions) :
  In o (chartCalls (effects (render hc (contextOf cm) g))) ->
  exists c m,
    dimensionColumn cm 0 = Some c /\ dimensionColumn cm 1 = Some m /\
    forall (p : TreemapPoint) (e : PointClickEvent) (g' : Globals),
      result (clickHandler o p e g') = Ok tt /\
      exists payload,
        emitted (effects (clickHandler o p e g')) = [OpenContextMenu payload] /\
        clickedPoint payload =
          [ {| columnId := id c; tupleValue := JStr (name p) |};
            {| columnId := id m; tupleValue := JNum (value p) |} ].
Proof.
  intros Hin.
  destruct (render_chart_call hc cm g o Hin)
    as (dm & t & vp & c & m & _ & _ & H0 & H1 & ->).
  exists c, m. repeat split; auto.
  unfold clickHandler. rewrite click_run. cbn. eauto.
Qed.

Lemma point_click_emits_one_OpenContextMenu_witness :
  exists o,
    In o (chartCalls
            (effects (render chartOk (contextOf Sample.twoMeasures) initialGlobals))) /\
    emitted (effects
      (clickHandler o (mkPoint "east" (Fin 10 0) (Fin 1 0) []) Sample.aClick
         initialGlobals)) =
      [OpenContextMenu
         {| event := {| clientX := JNum (Fin 120 0); clientY := JNum (Fin 80 0) |};
            clickedPoint :=
              [ {| columnId := "col-region"; tupleValue := JStr "east" |};
                {| columnId := "col-sales"; tupleValue := JNum (Fin 10 0) |} ];
            customActions := contextMenuActions |}] /\
    exists c m,
      dimensionColumn Sample.twoMeasures 0 = Some c /\
      dimensionColumn Sample.twoMeasures 1 = Some m /\
      forall (p : TreemapPoint) (e : PointClickEvent) (g' : Globals),
        result (clickHandler o p e g') = Ok tt /\
        exists payload,
          emitted (effects (clickHandler o p e g')) = [OpenContextMenu payload] /\
          clickedPoint payload =
            [ {| columnId := id c; tupleValue := JStr (name p) |};
              {| columnId := id m; tupleValue := JNum (value p) |} ].
Proof.
  eexists. split; [cbn; left; reflexivity|]. split; [reflexivity|].
  apply (point_click_emits_one_OpenContextMenu chartOk Sample.twoMeasures
           initialGlobals).
  cbn. left. reflexivity.
Defined.

(* ------------------------------------------------------------------ *)
(** * Visual properties *)
(* ------------------------------------------------------------------ *)

(** [getDataModel] reads the columns, the data and the configuration of the
    chart model, and nothing else. *)
Lemma getDataModel_frame (cm1 cm2 : ChartModel) (g1 g2 : Globals) :
  cmColumns cm1 = cmColumns cm2 ->
  cmData cm1 = cmData cm2 ->
  cmConfig cm1 = cmConfig cm2 ->
  result (getDataModel cm1 g1) = result (getDataModel cm2 g2).
Proof.
  intros Hcols Hdata Hconf.
  unfold getDataModel, configDimensionsOf, dataArrOf. run_monad.
  rewrite Hcols, Hdata, Hconf. cbn.
  destruct (cmConfig cm2) as [config|];
    [destruct (chartConfig config) as [[|c l]|]|]; cbn; try reflexivity;
    (destruct (cmData cm2) as [[|q qs]|]; cbn; try reflexivity;
     destruct (data q) as [dataArr|]; cbn; try reflexivity;
     destruct (firstColumnOf _ 0); cbn; try reflexivity;
     destruct (filter isMeasure (cmColumns cm2)) as [|m ms]; cbn;
     try reflexivity;
     destruct (mapResult _ _); reflexivity).
Qed.

(** C7: two passes whose chart models differ only in the gradient colours
    hand the chart the same series data; the colour-axis stops of each pass
    are its own three colours, each falling back on the current module-level
    value when the property is absent or empty. *)
Theorem gradient_colors_change_only_stops
    (hc1 hc2 : ChartOptions -> Result unit) (cm1 cm2 : ChartModel)
    (g1 g2 : Globals) (o1 o2 : ChartOptions) :
  sameExceptGradient cm1 cm2 ->
  In o1 (chartCalls (effects (render hc1 (contextOf cm1) g1))) ->
  In o2 (chartCalls (effects (render hc2 (contextOf cm2) g2))) ->
  seriesData o1 = seriesData o2 /\
  exists vp1 vp2,
    cmVisualProps cm1 = Some vp1 /\ cmVisualProps cm2 = Some vp2 /\
    stops o1 =
      [ (Fin 0 0, orString (vpGradientColor0 vp1) (gradientColor0 g1));
        (Fin 5 (-1), orString (vpGradientColor50 vp1) (gradientColor50 g1));
        (Fin 1 0, orString (vpGradientColor100 vp1) (gradientColor100 g1)) ] /\
    stops o2 =
      [ (Fin 0 0, orString (vpGradientColor0 vp2) (gradientColor0 g2));
        (Fin 5 (-1), orString (vpGradientColor50 vp2) (gradientColor50 g2));
        (Fin 1 0, orString (vpGradientColor100 vp2) (gradientColor100 g2)) ].
Proof.
  intros (Hcols & Hdata & Hconf & _) Hin1 Hin2.
  destruct (render_chart_call hc1 cm1 g1 o1 Hin1)
    as (dm1 & t1 & vp1 & c1 & m1 & Hrun1 & Hvp1 & _ & _ & ->).
  destruct (render_chart_call hc2 cm2 g2 o2 Hin2)
    as (dm2 & t2 & vp2 & c2 & m2 & Hrun2 & Hvp2 & _ & _ & ->).
  pose proof (getDataModel_frame cm1 cm2 g1 g2 Hcols Hdata Hconf) as Hframe.
  rewrite Hrun1, Hrun2 in Hframe. cbn in Hframe. injection Hframe as <-.
  split; [reflexivity|]. exists vp1, vp2. repeat split; auto.
Qed.

Lemma gradient_colors_change_only_stops_witness :
  sameExceptGradient Sample.twoMeasures Sample.recolored /\
  exists o1 o2,
    In o1 (chartCalls
      (effects (render chartOk (contextOf Sample.twoMeasures) initialGlobals))) /\
    In o2 (chartCalls
      (effects (render chartOk (contextOf Sample.recolored) initialGlobals))) /\
    map snd (stops o1) = ["#111111"; "#222222"; "#333333"] /\
    map snd (stops o2) = ["#AAAAAA"; "#BBBBBB"; "#CCCCCC"] /\
    seriesData o1 = seriesData o2.
Proof.
  assert (Hsame : sameExceptGradient Sample.twoMeasures Sample.recolored).
  { repeat split. exists Sample.props, Sample.otherColors. repeat split. }
  split; [exact Hsame|].
  do 2 eexists.
  split; [cbn; left; reflexivity|]. split; [cbn; left; reflexivity|].
  split; [reflexivity|]. split; [reflexivity|].
  apply (gradient_colors_change_only_stops chartOk chartOk
           Sample.twoMeasures Sample.recolored initialGlobals initialGlobals
           _ _ Hsame); cbn; left; reflexivity.
Defined.

(** C9, as stated, fails twice over.  A pass with no rows returns before
    the assignments: the host's number format is not taken.  And a property
    the host leaves out keeps the value of the previous pass, not the
    default the module was loaded with. *)
Lemma render_does_not_always_overwrite :
  (numberFormat Sample.props = Some "0.00" /\
   userNumberFormat
     (globalsAfter (render chartOk (contextOf Sample.noRows) initialGlobals))
   = "0.0") /\
  (let g1 := globalsAfter
               (render chartOk (contextOf Sample.twoMeasures) initialGlobals) in
   vpGradientColor0 Sample.propsWithoutColor0 = None /\
   gradientColor0 initialGlobals = "#F0F0F0" /\
   gradientColor0
     (globalsAfter (render chartOk (contextOf Sample.withoutColor0) g1))
   = "#111111").
Proof. cbv zeta. repeat split; reflexivity. Qed.

(** C9, amended: a pass that has points to draw and visual properties
    replaces each of the five module-level values by the host's property
    when that property is present and truthy, and keeps the current value
    otherwise; a pass with no point or no visual properties leaves the five
    values as they were. *)
Theorem render_updates_globals (hc : ChartOptions -> Result unit)
    (cm : ChartModel) (g : Globals) (dm : DataModel) :
  result (getDataModel cm g) = Ok dm ->
  let g' := globalsAfter (render hc (contextOf cm) g) in
  (forall vp,
     values dm <> [] -> cmVisualProps cm = Some vp ->
     userNumberFormat g' = orString (numberFormat vp) (userNumberFormat g) /\
     numberOfLabels g' = orNumber (numOfLabels vp) (numberOfLabels g) /\
     gradientColor0 g' = orString (vpGradientColor0 vp) (gradientColor0 g) /\
     gradientColor50 g' = orString (vpGradientColor50 vp) (gradientColor50 g) /\
     gradientColor100 g' =
       orString (vpGradientColor100 vp) (gradientColor100 g)) /\
  (values dm = [] \/ cmVisualProps cm = None -> g' = g).
Proof.
  intros Hdm. cbv zeta.
  destruct (render_cases hc cm g) as (dm' & t & Hrun & Hcases).
  rewrite Hrun in Hdm. cbn in Hdm. injection Hdm as ->. cbv zeta in Hcases.
  destruct Hcases
    as [(Hnil & Hr)|[(Hne & Hnone & Hr)|(Hne & vp' & Hvp & [(_ & Hr)|Hm])]].
  - rewrite Hr. cbn. split; [intros vp Hv; congruence | reflexivity].
  - rewrite Hr. cbn. split; [intros vp _ Hvp; congruence | reflexivity].
  - rewrite Hr. cbn. split; [|intros [?|?]; congruence].
    intros vp _ Hvp2. rewrite Hvp in Hvp2. injection Hvp2 as <-.
    repeat split.
  - destruct Hm as (c & m & _ & _ & Hr). rewrite Hr. cbn.
    split; [|intros [?|?]; congruence].
    intros vp _ Hvp2. rewrite Hvp in Hvp2. injection Hvp2 as <-.
    repeat split.
Qed.

Lemma render_updates_globals_witness :
  exists dm,
    result (getDataModel Sample.withoutColor0 initialGlobals) = Ok dm /\
    globalsAfter (render chartOk (contextOf Sample.withoutColor0) initialGlobals)
    = {| userNumberFormat := "0.00";
         numberOfLabels := Fin 3 0;
         gradientColor0 := "#F0F0F0";
         gradientColor50 := "#222222";
         gradientColor100 := "#333333" |} /\
    let g' := globalsAfter
                (render chartOk (contextOf Sample.withoutColor0) initialGlobals) in
    (forall vp,
       values dm <> [] -> cmVisualProps Sample.withoutColor0 = Some vp ->
       userNumberFormat g' =
         orString (numberFormat vp) (userNumberFormat initialGlobals) /\
       numberOfLabels g' =
         orNumber (numOfLabels vp) (numberOfLabels initialGlobals) /\
       gradientColor0 g' =
         orString (vpGradientColor0 vp) (gradientColor0 initialGlobals) /\
       gradientColor50 g' =
         orString (vpGradientColor50 vp) (gradientColor50 initialGlobals) /\
       gradientColor100 g' =
         orString (vpGradientColor100 vp) (gradientColor100 initialGlobals)) /\
    (values dm = [] \/ cmVisualProps Sample.withoutColor0 = None ->
     g' = initialGlobals).
Proof.
  eexists. split; [reflexivity|]. split; [reflexivity|].
  apply (render_updates_globals chartOk Sample.withoutColor0 initialGlobals).
  reflexivity.
Defined.

(* ------------------------------------------------------------------ *)
(** * Further properties of [getDataModel] *)
(* ------------------------------------------------------------------ *)

Lemma mapResult_Throw {A B} (f : A -> Result B) (l : list A) (x : A) (e : Error) :
  In x l -> f x = Throw e -> exists e', mapResult f l = Throw e'.
Proof.
  induction l as [|y l IH]; cbn; [tauto|].
  intros [->|Hin] Hx.
  - rewrite Hx. eauto.
  - destruct (f y); [|eauto].
    destruct (IH Hin Hx) as [e' ->]. eauto.
Qed.

Lemma rowToPoint_null (measureCols : list ChartColumn) (row : list JS.value) :
  index row 0 = JNull -> exists e, rowToPoint measureCols row = Throw e.
Proof. unfold rowToPoint. intros ->. cbn. eauto. Qed.

(** X1: [getDataModel] never throws and never touches the module-level
    variables.  It ends in one of two ways: a failure, with the empty data
    model and exactly one [console.error] line; or a success, with a
    rearrangement of the images of all the rows, the name of the configured
    category column, and the names of all the measure columns of the
    model. *)
Theorem getDataModel_outcomes (cm : ChartModel) (g : Globals) :
  (exists msg,
     getDataModel cm g =
       (Ok emptyDataModel, g, [getDataModelLog; ConsoleError msg])) \/
  (exists cat dataArr pts dm,
     dimensionColumn cm 0 = Some cat /\
     dataArrOf cm = Some dataArr /\
     filter isMeasure (cmColumns cm) <> [] /\
     mapResult (rowToPoint (filter isMeasure (cmColumns cm)))
               (dataValue dataArr) = Ok pts /\
     getDataModel cm g = (Ok dm, g, [getDataModelLog]) /\
     Permutation (values dm) pts /\
     categoryName dm = Some (SDK.name cat) /\
     measureColumns dm =
       Some (map SDK.name (filter isMeasure (cmColumns cm)))).
Proof.
  unfold getDataModel, getDataModelLog. run_monad.
  destruct (configDimensionsOf cm) as [dims|err] eqn:Hd; cbn; [|eauto].
  destruct (dataArrOf cm) as [dataArr|] eqn:Ha; cbn; [|eauto].
  destruct (firstColumnOf dims 0) as [cat|] eqn:Hc; cbn; [|eauto].
  destruct (filter isMeasure (cmColumns cm)) as [|m ms] eqn:Hm; cbn; [eauto|].
  destruct (mapResult (rowToPoint (m :: ms)) (dataValue dataArr)) as [pts|err]
    eqn:Hp; cbn; [|eauto].
  right. exists cat, dataArr, pts. eexists.
  rewrite <- (configDimensions_column cm dims 0 Hd).
  repeat split; try reflexivity; auto; [discriminate|]. cbn. apply sort_perm.
Qed.

(** X2: one row with a [null] category loses every row: whatever the other
    rows hold, [getDataModel] returns the empty data model and logs the
    caught error. *)
Theorem null_category_discards_all_rows (cm : ChartModel) (g : Globals)
    (cat : ChartColumn) (dataArr : DataPointsArray) (row : list JS.value) :
  dimensionColumn cm 0 = Some cat ->
  dataArrOf cm = Some dataArr ->
  filter isMeasure (cmColumns cm) <> [] ->
  In row (dataValue dataArr) ->
  index row 0 = JNull ->
  getDataModel cm g =
    (Ok emptyDataModel, g,
     [getDataModelLog; ConsoleError "Error in getDataModel: "]).
Proof.
  intros Hcat Ha Hm Hin Hnull.
  destruct (dimensionColumn_Some cm 0 cat Hcat) as (dims & Hd & Hc).
  destruct (rowToPoint_null (filter isMeasure (cmColumns cm)) row Hnull)
    as [e He].
  destruct (mapResult_Throw _ _ row e Hin He) as [e' Hthrow].
  unfold getDataModel, getDataModelLog. run_monad.
  rewrite Hd; cbn. rewrite Ha; cbn. rewrite Hc; cbn.
  destruct (filter isMeasure (cmColumns cm)) as [|m ms]; [congruence|].
  cbn. rewrite Hthrow. reflexivity.
Qed.

Lemma null_category_discards_all_rows_witness :
  In [JNull; JNum (Fin 3 0); JNum (Fin 4 0)] (rowsOf Sample2.mixed) /\
  getDataModel Sample2.mixed initialGlobals =
    (Ok emptyDataModel, initialGlobals,
     [getDataModelLog; ConsoleError "Error in getDataModel: "]).
Proof.
  split; [cbn; auto|].
  apply (null_category_discards_all_rows Sample2.mixed initialGlobals
           Sample.region
           {| dataColumns := ["col-region"; "col-sales"; "col-profit"];
              dataValue := Sample2.mixedRows |}
           [JNull; JNum (Fin 3 0); JNum (Fin 4 0)]);
    try reflexivity; [discriminate | cbn; auto].
Defined.

Lemma mapi_from_columnName (row : list JS.value) (cols : list ChartColumn)
    (i : nat) :
  map columnName
    (mapi_from i (fun col colIndex =>
                    {| columnName := SDK.name col;
                       tipValue := index row (colIndex + 1) |}) cols)
  = map SDK.name cols.
Proof.
  revert i. induction cols as [|c cols IH]; intros i; cbn; [reflexivity|].
  now rewrite IH.
Qed.

Lemma mapi_from_tipValue (row : list JS.value) (cols : list ChartColumn)
    (i : nat) :
  map tipValue
    (mapi_from i (fun col colIndex =>
                    {| columnName := SDK.name col;
                       tipValue := index row (colIndex + 1) |}) cols)
  = map (fun j => index row (S j)) (seq i (List.length cols)).
Proof.
  revert i. induction cols as [|c cols IH]; intros i; cbn; [reflexivity|].
  now rewrite IH, Nat.add_1_r.
Qed.

(** X3: every point takes its [value] from index 1 of its row, and its
    [tooltipData] has one entry per measure column of the model, in column
    order: the entry of the [i]-th measure column carries that column's
    name and the raw row entry at index [i + 1]. *)
Theorem points_carry_measures (cm : ChartModel) (g : Globals)
    (cat : ChartColumn) (dataArr : DataPointsArray) :
  dimensionColumn cm 0 = Some cat ->
  dataArrOf cm = Some dataArr ->
  filter isMeasure (cmColumns cm) <> [] ->
  (forall row, In row (dataValue dataArr) -> index row 0 <> JNull) ->
  exists dm pts,
    result (getDataModel cm g) = Ok dm /\
    Permutation (values dm) pts /\
    Forall2 (fun row p =>
               value p = parseFloat (index row 1) /\
               map columnName (tooltipData p) =
                 map SDK.name (filter isMeasure (cmColumns cm)) /\
               map tipValue (tooltipData p) =
                 map (fun i => index row (S i))
                     (seq 0 (List.length (filter isMeasure (cmColumns cm)))))
            (dataValue dataArr) pts.
Proof.
  intros Hcat Ha Hm Hrows.
  destruct (getDataModel_points cm g cat dataArr Hcat Ha Hm Hrows)
    as (dm & pts & Hres & Hperm & Hall).
  exists dm, pts. repeat split; auto.
  eapply Forall2_impl; [|exact Hall]. cbn. intros row p Hp.
  unfold rowToPoint in Hp.
  destruct (match index row 0 with
            | JUndefined => Ok "Unnamed"
            | _ => toString (index row 0)
            end) as [n|]; [|discriminate].
  injection Hp as <-. cbn. unfold mapi.
  rewrite mapi_from_columnName, mapi_from_tipValue. auto.
Qed.

Lemma points_carry_measures_witness :
  exists dm,
    result (getDataModel Sample.twoMeasures initialGlobals) = Ok dm /\
    map (fun p => map tipValue (tooltipData p)) (values dm) =
      [ [JNum (Fin 255 (-1)); JNum (Fin 2 0)];
        [JNum (Fin 10 0); JNum (Fin 1 0)];
        [JStr "7.5"; JNum (Fin 3 0)] ] /\
    exists pts,
      Permutation (values dm) pts /\
      Forall2 (fun row p =>
                 value p = parseFloat (index row 1) /\
                 map columnName (tooltipData p) = ["Sales"; "Profit"] /\
                 map tipValue (tooltipData p) =
                   map (fun i => index row (S i)) (seq 0 2))
              Sample.rows pts.
Proof.
  destruct (points_carry_measures Sample.twoMeasures initialGlobals
              Sample.region
              {| dataColumns := ["col-region"; "col-sales"; "col-profit"];
                 dataValue := Sample.rows |})
    as (dm & pts & Hres & Hperm & Hall).
  - reflexivity.
  - reflexivity.
  - discriminate.
  - intros row Hin. cbn in Hin. destruct Hin as [<-|[<-|[<-|[]]]]; discriminate.
  - exists dm. split; [exact Hres|]. split.
    + cbn in Hres. injection Hres as <-. reflexivity.
    + exists pts. split; assumption.
Defined.

(** ** Ties *)

Section SortStability.
Context {A : Type} (comparefn : A -> A -> number) (cls : A -> bool).
Hypothesis passed_over :
  forall x y, cls x = true -> nonpos (SortCompare comparefn x y) = false ->
              cls y = false.

Lemma insert_filter (x : A) (l : list A) :
  filter cls (insert comparefn x l) = filter cls (x :: l).
Proof.
  induction l as [|y l IH]; [reflexivity|].
  cbn [insert]. destruct (nonpos (SortCompare comparefn x y)) eqn:Hc;
    [reflexivity|].
  cbn [filter] in *. rewrite IH.
  destruct (cls x) eqn:Hx; [|reflexivity].
  now rewrite (passed_over x y Hx Hc).
Qed.

Lemma sort_filter (l : list A) :
  filter cls (sort comparefn l) = filter cls l.
Proof.
  induction l as [|x l IH]; [reflexivity|].
  cbn [sort]. rewrite insert_filter. cbn. now rewrite IH.
Qed.
End SortStability.

Lemma sameNumber_passed_over (v : number) (x y : TreemapPoint) :
  sameNumber (value x) v = true ->
  nonpos (SortCompare byValueDescending x y) = false ->
  sameNumber (value y) v = false.
Proof.
  unfold sameNumber, SortCompare, byValueDescending.
  intros Hx Hc. apply andb_true_iff in Hx as [Hxv Hvx].
  destruct (leb_not_NaN _ _ Hxv) as [Hxn _].
  destruct (leb (value y) v) eqn:Hyv; [|reflexivity].
  destruct (leb v (value y)) eqn:Hvy; [|reflexivity].
  destruct (leb_not_NaN _ _ Hyv) as [Hyn _].
  rewrite (nonpos_sub (value y) (value x) Hyn Hxn) in Hc.
  now rewrite (leb_trans _ _ _ Hyv Hvx) in Hc.
Qed.

(** X4: when the first measure of every row parses to a number, the sort
    is stable on the points: for every number [v], the points whose value
    equals [v] come out in the order of their rows. *)
Theorem equal_values_keep_row_order (cm : ChartModel) (g : Globals)
    (cat : ChartColumn) (dataArr : DataPointsArray) :
  dimensionColumn cm 0 = Some cat ->
  dataArrOf cm = Some dataArr ->
  filter isMeasure (cmColumns cm) <> [] ->
  (forall row, In row (dataValue dataArr) -> index row 0 <> JNull) ->
  (forall row, In row (dataValue dataArr) -> parseFloat (index row 1) <> NaN) ->
  exists dm pts,
    result (getDataModel cm g) = Ok dm /\
    Forall2 (fun row p =>
               rowToPoint (filter isMeasure (cmColumns cm)) row = Ok p)
            (dataValue dataArr) pts /\
    forall v,
      filter (fun p => sameNumber (value p) v) (values dm) =
      filter (fun p => sameNumber (value p) v) pts.
Proof.
  intros Hcat Ha Hm Hrows _.
  destruct (getDataModel_success cm g cat dataArr Hcat Ha Hm Hrows)
    as (pts & Hp & Hrun).
  eexists; exists pts. rewrite Hrun. split; [reflexivity|].
  split; [now apply mapResult_Forall2|].
  intros v. cbn. apply sort_filter. intros x y. apply sameNumber_passed_over.
Qed.

Lemma equal_values_keep_row_order_witness :
  (forall row, In row Sample2.tiedRows -> parseFloat (index row 1) <> NaN) /\
  exists dm,
    result (getDataModel Sample2.tied initialGlobals) = Ok dm /\
    map name (values dm) = ["east"; "west"; "south"; "north"] /\
    map name (filter (fun p => sameNumber (value p) (Fin 10 0)) (values dm)) =
      ["east"; "west"; "south"] /\
    exists pts,
      Forall2 (fun row p =>
                 rowToPoint [Sample.sales; Sample.profit] row = Ok p)
              Sample2.tiedRows pts /\
      forall v,
        filter (fun p => sameNumber (value p) v) (values dm) =
        filter (fun p => sameNumber (value p) v) pts.
Proof.
  assert (Hnum : forall row, In row Sample2.tiedRows ->
                             parseFloat (index row 1) <> NaN).
  { intros row Hin. cbn in Hin.
    destruct Hin as [<-|[<-|[<-|[<-|[]]]]]; cbn; discriminate. }
  split; [exact Hnum|].
  destruct (equal_values_keep_row_order Sample2.tied initialGlobals
              Sample.region
              {| dataColumns := ["col-region"; "col-sales"; "col-profit"];
                 dataValue := Sample2.tiedRows |})
    as (dm & pts & Hres & Hall & Hst).
  - reflexivity.
  - reflexivity.
  - discriminate.
  - intros row Hin. cbn in Hin.
    destruct Hin as [<-|[<-|[<-|[<-|[]]]]]; discriminate.
  - exact Hnum.
  - exists dm. split; [exact Hres|].
    cbn in Hres. injection Hres as <-.
    split; [reflexivity|]. split; [reflexivity|].
    exists pts. split; assumption.
Defined.

(* ------------------------------------------------------------------ *)
(** * Further properties of [render] and [renderChart] *)
(* ------------------------------------------------------------------ *)

Lemma truthy_string (s : string) : truthy (JStr s) = true <-> s <> "".
Proof.
  cbn. destruct (String.eqb_spec s ""); cbn; split; congruence.
Qed.

Lemma missing_Some (s : string) : missing (Some s) = false <-> s <> "".
Proof.
  unfold missing. rewrite <- truthy_string.
  destruct (truthy (JStr s)); cbn; split; congruence.
Qed.

(** What a pass on a chart model leaves behind: the module-level variables,
    and one chart call when the pass is ready to mount, none otherwise. *)
Lemma render_mount (hc : ChartOptions -> Result unit) (cm : ChartModel)
    (g : Globals) (dm : DataModel) :
  result (getDataModel cm g) = Ok dm ->
  globalsAfter (render hc (contextOf cm) g) = passGlobals cm dm g /\
  ((readyToMount cm dm /\
    exists c m,
      dimensionColumn cm 0 = Some c /\ dimensionColumn cm 1 = Some m /\
      chartCalls (effects (render hc (contextOf cm) g)) =
        [chartOptions dm (passGlobals cm dm g) (id c) (id m)
           (option_map SDK.name (dimensionColumn cm 2))])
   \/
   (~ readyToMount cm dm /\
    chartCalls (effects (render hc (contextOf cm) g)) = [])).
Proof.
  intros Hdm.
  destruct (getDataModel_run cm g) as (dm0 & t & Hrun & Hc & _).
  rewrite Hrun in Hdm. cbn in Hdm. injection Hdm as ->.
  unfold render, contextOf, passGlobals, readyToMount. run_monad.
  cbn -[getDataModel]. rewrite Hrun. cbn -[getDataModel].
  destruct (values dm) as [|p ps] eqn:Hv; cbn.
  { split; [reflexivity|]. right.
    rewrite ?app_nil_r, ?chartCalls_app, ?Hc.
    split; [intros (Hne & _); congruence | reflexivity]. }
  destruct (cmVisualProps cm) as [vp|] eqn:Hvp; cbn.
  2: { split; [reflexivity|]. right.
       rewrite ?app_nil_r, ?chartCalls_app, ?Hc.
       split; [intros (_ & (vp & Hvp') & _); congruence | reflexivity]. }
  destruct (missing (option_map id (dimensionColumn cm 0))
            || missing (option_map id (dimensionColumn cm 1))) eqn:Hmiss; cbn.
  { split; [reflexivity|]. right.
    rewrite ?app_nil_r, ?chartCalls_app, ?Hc.
    split; [|reflexivity].
    intros (_ & _ & c & m & H0 & H1 & Hc0 & Hm0).
    rewrite H0, H1 in Hmiss. cbn [option_map] in Hmiss.
    apply missing_Some in Hc0, Hm0. rewrite Hc0, Hm0 in Hmiss. discriminate. }
  apply orb_false_iff in Hmiss as [H0 H1].
  destruct (dimensionColumn cm 0) as [c|] eqn:Hd0; [|discriminate].
  destruct (dimensionColumn cm 1) as [m|] eqn:Hd1; [|discriminate].
  cbn [option_map] in H0, H1. apply missing_Some in H0, H1.
  assert (Hcalls :
    forall tail, chartCalls tail = [] ->
      chartCalls
        (ConsoleLog "Rendering the chart..." ::
         t ++ HighchartsChart
                (chartOptions dm (applyVisualProps vp g) (id c) (id m)
                   (option_map SDK.name (dimensionColumn cm 2))) :: tail)
      = [chartOptions dm (applyVisualProps vp g) (id c) (id m)
           (option_map SDK.name (dimensionColumn cm 2))]).
  { intros tail Htail. cbn. rewrite chartCalls_app, Hc. cbn. now rewrite Htail. }
  destruct (hc _) as [[]|]; cbn; rewrite ?app_nil_r, <- ?app_assoc; cbn;
    (split; [reflexivity|]; left;
     split; [repeat split; eauto 8; discriminate|];
     exists c, m; repeat split; apply Hcalls; reflexivity).
Qed.

Lemma copy_points (l : list TreemapPoint) :
  map (fun dataPoint =>
         {| name := name dataPoint;
            value := value dataPoint;
            colorValue := colorValue dataPoint;
            tooltipData := tooltipData dataPoint |}) l = l.
Proof.
  induction l as [|[n v c t] l IH]; cbn; [reflexivity|]. now rewrite IH.
Qed.

Lemma orString_idem (a : option string) (b : string) :
  orString a (orString a b) = orString a b.
Proof. unfold orString. destruct a as [s|]; [destruct (truthy _)|]; reflexivity. Qed.

Lemma orNumber_idem (a : option number) (b : number) :
  orNumber a (orNumber a b) = orNumber a b.
Proof. unfold orNumber. destruct a as [s|]; [destruct (truthy _)|]; reflexivity. Qed.

Lemma passGlobals_idem (cm : ChartModel) (dm : DataModel) (g : Globals) :
  passGlobals cm dm (passGlobals cm dm g) = passGlobals cm dm g.
Proof.
  unfold passGlobals. destruct (values dm); [reflexivity|].
  destruct (cmVisualProps cm); [|reflexivity].
  unfold applyVisualProps. cbn.
  now rewrite !orString_idem, orNumber_idem.
Qed.

(** X5: a [render] pass calls [Highcharts.chart] at most once, and only
    when the point list is not empty, the model carries visual properties,
    and the first and second dimensions of the configuration each start with
    a column whose id is not empty.  Whether it calls, and with which
    options, does not depend on what the chart library then does. *)
Theorem render_mounts_only_when_ready (hc : ChartOptions -> Result unit)
    (cm : ChartModel) (g : Globals) (dm : DataModel) :
  result (getDataModel cm g) = Ok dm ->
  (List.length (chartCalls (effects (render hc (contextOf cm) g))) <= 1)%nat /\
  ((exists o, chartCalls (effects (render hc (contextOf cm) g)) = [o]) ->
   readyToMount cm dm) /\
  (forall hc' : ChartOptions -> Result unit,
     chartCalls (effects (render hc' (contextOf cm) g)) =
     chartCalls (effects (render hc (contextOf cm) g))).
Proof.
  intros Hdm.
  destruct (render_mount hc cm g dm Hdm)
    as (_ & [(Hready & c & m & H0 & H1 & Hcalls) | (Hnot & Hcalls)]);
    rewrite Hcalls; cbn [List.length].
  - split; [lia|]. split; [auto|]. intros hc'.
    destruct (render_mount hc' cm g dm Hdm)
      as (_ & [(_ & c' & m' & H0' & H1' & ->) | (Hnot' & _)]);
      [congruence | contradiction].
  - split; [lia|]. split; [intros (o & Ho); discriminate|]. intros hc'.
    destruct (render_mount hc' cm g dm Hdm)
      as (_ & [(Hready' & _) | (_ & ->)]); [contradiction | reflexivity].
Qed.

Lemma render_mounts_only_when_ready_witness :
  exists dm,
    result (getDataModel Sample.twoMeasures initialGlobals) = Ok dm /\
    (exists o,
       chartCalls
         (effects (render Sample2.chartFails (contextOf Sample.twoMeasures)
                     initialGlobals)) = [o]) /\
    (List.length
       (chartCalls
          (effects (render Sample2.chartFails (contextOf Sample.twoMeasures)
                      initialGlobals))) <= 1)%nat /\
    ((exists o,
        chartCalls
          (effects (render Sample2.chartFails (contextOf Sample.twoMeasures)
                      initialGlobals)) = [o]) ->
     readyToMount Sample.twoMeasures dm) /\
    (forall hc' : ChartOptions -> Result unit,
       chartCalls
         (effects (render hc' (contextOf Sample.twoMeasures) initialGlobals)) =
       chartCalls
         (effects (render Sample2.chartFails (contextOf Sample.twoMeasures)
                     initialGlobals))).
Proof.
  eexists. split; [reflexivity|]. split; [eexists; reflexivity|].
  apply (render_mounts_only_when_ready Sample2.chartFails
           Sample.twoMeasures initialGlobals). reflexivity.
Defined.

(** X6: the options of a chart call carry the reshaped points unchanged and
    in the same order, target the element ['chart'], and take their colours
    from the module-level variables as the pass leaves them: [minColor] and
    the first stop are [gradientColor0], the middle stop is
    [gradientColor50], [maxColor] and the last stop are [gradientColor100].
    The legend title is the name of the first column of the third
    dimension. *)
Theorem chart_options_content (hc : ChartOptions -> Result unit)
    (cm : ChartModel) (g : Globals) (o : ChartOptions) :
  In o (chartCalls (effects (render hc (contextOf cm) g))) ->
  exists dm,
    result (getDataModel cm g) = Ok dm /\
    seriesData o = values dm /\
    renderTo o = "chart" /\
    legendTitle o = option_map SDK.name (dimensionColumn cm 2) /\
    tooltipCategoryName o = categoryName dm /\
    labelMeasureColumns o = measureColumns dm /\
    let g' := globalsAfter (render hc (contextOf cm) g) in
    minColor o = gradientColor0 g' /\
    maxColor o = gradientColor100 g' /\
    stops o = [ (Fin 0 0, gradientColor0 g');
                (Fin 5 (-1), gradientColor50 g');
                (Fin 1 0, gradientColor100 g') ].
Proof.
  intros Hin.
  destruct (getDataModel_run cm g) as (dm & t & Hrun & _).
  assert (Hdm : result (getDataModel cm g) = Ok dm) by now rewrite Hrun.
  exists dm. split; [assumption|].
  destruct (render_mount hc cm g dm Hdm)
    as (Hg & [(_ & c & m & _ & _ & Hcalls) | (_ & Hcalls)]);
    rewrite Hcalls in Hin; cbn in Hin; [|tauto].
  destruct Hin as [<-|[]]. cbv zeta. rewrite Hg. cbn.
  rewrite copy_points. repeat split.
Qed.

Lemma chart_options_content_witness :
  exists o,
    In o (chartCalls
            (effects (render chartOk (contextOf Sample.twoMeasures) initialGlobals))) /\
    map name (seriesData o) = ["west"; "east"; "Unnamed"] /\
    minColor o = "#111111" /\ maxColor o = "#333333" /\
    legendTitle o = Some "Profit" /\
    exists dm,
      result (getDataModel Sample.twoMeasures initialGlobals) = Ok dm /\
      seriesData o = values dm.
Proof.
  eexists. split; [cbn; left; reflexivity|].
  repeat (split; [reflexivity|]).
  destruct (chart_options_content chartOk Sample.twoMeasures initialGlobals _
              (or_introl eq_refl)) as (dm & Hdm & Hdata & _).
  exists dm. split; assumption.
Defined.

(** X7: what a pass writes to the module-level variables does not depend
    on the chart library: the values are the same whether [Highcharts.chart]
    returns or throws, so a failed mount is not rolled back. *)
Theorem globals_do_not_depend_on_chart_library
    (hc1 hc2 : ChartOptions -> Result unit) (ctx : CustomChartContext)
    (g : Globals) :
  globalsAfter (render hc1 ctx g) = globalsAfter (render hc2 ctx g).
Proof.
  destruct ctx as [[[cm|]|err]]; [|reflexivity|reflexivity].
  destruct (getDataModel_run cm g) as (dm & t & Hrun & _).
  assert (Hdm : result (getDataModel cm g) = Ok dm) by now rewrite Hrun.
  change {| getChartModel := Ok (Some cm) |} with (contextOf cm).
  destruct (render_mount hc1 cm g dm Hdm) as (-> & _).
  destruct (render_mount hc2 cm g dm Hdm) as (-> & _).
  reflexivity.
Qed.

(** X8: rendering the same chart model again changes nothing more: the
    second pass leaves the module-level variables as the first left them and
    gives the chart library the same options. *)
Theorem rerender_is_idempotent (hc hc' : ChartOptions -> Result unit)
    (cm : ChartModel) (g : Globals) :
  let g1 := globalsAfter (render hc (contextOf cm) g) in
  globalsAfter (render hc' (contextOf cm) g1) = g1 /\
  chartCalls (effects (render hc' (contextOf cm) g1)) =
  chartCalls (effects (render hc (contextOf cm) g)).
Proof.
  cbv zeta.
  destruct (getDataModel_run cm g) as (dm & t & Hrun & _).
  assert (Hdm : result (getDataModel cm g) = Ok dm) by now rewrite Hrun.
  destruct (render_mount hc cm g dm Hdm) as (Hg & Hcalls). rewrite Hg.
  assert (Hdm1 : result (getDataModel cm (passGlobals cm dm g)) = Ok dm).
  { now rewrite (getDataModel_frame cm cm (passGlobals cm dm g) g). }
  destruct (render_mount hc' cm (passGlobals cm dm g) dm Hdm1) as (Hg1 & Hcalls1).
  rewrite passGlobals_idem in Hg1, Hcalls1. split; [exact Hg1|].
  destruct Hcalls as [(Hready & c & m & H0 & H1 & Hc1) | (Hnot & Hc1)];
    destruct Hcalls1 as [(Hready' & c' & m' & H0' & H1' & Hc2) | (Hnot' & Hc2)];
    rewrite Hc1, Hc2; try reflexivity; try contradiction.
  congruence.
Qed.

(** X9: [renderChart] returns normally for every context and chart library.
    Its effects are its log line, [RenderStart], the effects of [render], and
    [RenderComplete], in that order; [render] itself emits no host event, so
    any chart call lies between the two lifecycle events. *)
Theorem renderChart_brackets_render (hc : ChartOptions -> Result unit)
    (ctx : CustomChartContext) (g : Globals) :
  renderChart hc ctx g =
    (Ok tt, globalsAfter (render hc ctx g),
     ConsoleLog "Starting chart rendering process..." ::
     EmitEvent RenderStart ::
     effects (render hc ctx g) ++ [EmitEvent RenderComplete]) /\
  emitted (effects (render hc ctx g)) = [].
Proof.
  destruct (render_total hc ctx g) as (g' & t & Hr & He & _).
  destruct (renderChart_run hc ctx g) as (g1 & t1 & Hr1 & ->).
  rewrite Hr in Hr1. injection Hr1 as <- <-. rewrite Hr. cbn. auto.
Qed.

(** X10: when the first measure of every row parses to a number, the series
    data of a chart call are in descending order of [value]. *)
Theorem chart_receives_sorted_points (hc : ChartOptions -> Result unit)
    (cm : ChartModel) (g : Globals) (o : ChartOptions) :
  In o (chartCalls (effects (render hc (contextOf cm) g))) ->
  (forall row, In row (rowsOf cm) -> parseFloat (index row 1) <> NaN) ->
  StronglySorted descending (seriesData o).
Proof.
  intros Hin Hnum.
  destruct (render_chart_call hc cm g o Hin)
    as (dm & t & vp & c & m & Hrun & _ & _ & _ & ->).
  cbn. rewrite copy_points.
  destruct (getDataModel_run cm g)
    as (dm' & t' & Hrun' & _ & _ & Hv).
  rewrite Hrun in Hrun'. injection Hrun' as <- <-.
  destruct Hv as [-> | (cat & dataArr & pts & _ & Ha & _ & Hmap & ->)];
    [constructor|].
  apply sort_points_sorted. apply Forall_forall. intros p Hp.
  destruct (Forall2_In_r _ _ _ p (mapResult_Forall2 _ _ _ Hmap) Hp)
    as (row & Hrow & Hpt).
  apply rowToPoint_Ok in Hpt as (_ & _ & -> & _).
  apply Hnum. unfold rowsOf. now rewrite Ha.
Qed.

Lemma chart_receives_sorted_points_witness :
  exists o,
    In o (chartCalls
            (effects (render chartOk (contextOf Sample.twoMeasures) initialGlobals))) /\
    map value (seriesData o) = [Fin 255 (-1); Fin 10 0; Fin 75 (-1)] /\
    StronglySorted descending (seriesData o).
Proof.
  eexists. split; [cbn; left; reflexivity|]. split; [reflexivity|].
  apply (chart_receives_sorted_points chartOk Sample.twoMeasures initialGlobals).
  - cbn. left. reflexivity.
  - intros row Hin. cbn in Hin.
    destruct Hin as [<-|[<-|[<-|[]]]]; cbn; discriminate.
Defined.

(* ------------------------------------------------------------------ *)
(** * The registered configuration callbacks *)
(* ------------------------------------------------------------------ *)

(** X11: with at least one attribute and one measure column,
    [getDefaultChartConfig] returns a single configuration of five
    dimensions and leaves the module-level variables alone.  The category is
    the first attribute column and the measure the first measure column, each
    stored as a single object, not an array.  The remaining measure columns
    are dealt out in order, each to exactly one dimension: at most one to the
    colour axis, at most two to the labels, all the others to the tooltips. *)
Theorem getDefaultChartConfig_deals_columns (cm : ChartModel) (g : Globals)
    (a : ChartColumn) (attrs : list ChartColumn)
    (m : ChartColumn) (ms : list ChartColumn) :
  filter isAttribute (cmColumns cm) = a :: attrs ->
  filter isMeasure (cmColumns cm) = m :: ms ->
  exists color labels tips,
    result (getDefaultChartConfig cm g) =
      Ok [ {| configKey := "default";
              dimensions :=
                [ {| key := "category"; columns := OneColumn a |};
                  {| key := "measure"; columns := OneColumn m |};
                  {| key := "color axis"; columns := color |};
                  {| key := "Labels"; columns := ColumnArray labels |};
                  {| key := "Tooltip columns"; columns := ColumnArray tips |} ] |} ] /\
    globalsAfter (getDefaultChartConfig cm g) = g /\
    columnsOf color ++ labels ++ tips = ms /\
    (List.length (columnsOf color) <= 1)%nat /\
    (List.length labels <= 2)%nat /\
    (color = ColumnArray [] \/ exists c, color = OneColumn c).
Proof.
  intros Ha Hm. unfold getDefaultChartConfig. run_monad. rewrite Ha, Hm.
  destruct ms as [|m1 [|m2 [|m3 [|m4 rest]]]]; cbn;
    do 3 eexists; repeat split; cbn; eauto; lia.
Qed.

Lemma getDefaultChartConfig_deals_columns_witness :
  exists color labels tips,
    result (getDefaultChartConfig Sample2.wide initialGlobals) =
      Ok [ {| configKey := "default";
              dimensions :=
                [ {| key := "category"; columns := OneColumn Sample.region |};
                  {| key := "measure"; columns := OneColumn (Sample2.measure "m1") |};
                  {| key := "color axis"; columns := color |};
                  {| key := "Labels"; columns := ColumnArray labels |};
                  {| key := "Tooltip columns"; columns := ColumnArray tips |} ] |} ] /\
    globalsAfter (getDefaultChartConfig Sample2.wide initialGlobals)
      = initialGlobals /\
    columnsOf color ++ labels ++ tips =
      map Sample2.measure ["m2"; "m3"; "m4"; "m5"; "m6"] /\
    (List.length (columnsOf color) <= 1)%nat /\
    (List.length labels <= 2)%nat /\
    (color = ColumnArray [] \/ exists c, color = OneColumn c).
Proof.
  apply (getDefaultChartConfig_deals_columns Sample2.wide initialGlobals
           Sample.region [Sample2.city]
           (Sample2.measure "m1")
           (map Sample2.measure ["m2"; "m3"; "m4"; "m5"; "m6"]));
    reflexivity.
Defined.

Lemma query_fold_Throw (dims : list ChartConfigDimension) (e : Error) :
  fold_left
    (fun acc dimension =>
       match acc with
       | Ok q =>
           match spread (columns dimension) with
           | Ok cs => Ok {| queryColumns := queryColumns q ++ cs |}
           | Throw e => Throw e
           end
       | Throw e => Throw e
       end) dims (Throw e) = Throw e.
Proof. induction dims as [|d dims IH]; cbn; auto. Qed.

Lemma query_fold (dims : list ChartConfigDimension) (acc : list ChartColumn) :
  let folded :=
    fold_left
      (fun acc dimension =>
         match acc with
         | Ok q =>
             match spread (columns dimension) with
             | Ok cs => Ok {| queryColumns := queryColumns q ++ cs |}
             | Throw e => Throw e
             end
         | Throw e => Throw e
         end) dims (Ok {| queryColumns := acc |}) in
  (Forall (fun d => exists cs, columns d = ColumnArray cs) dims /\
   folded =
     Ok {| queryColumns :=
             acc ++ List.concat (map (fun d => columnsOf (columns d)) dims) |})
  \/
  (~ Forall (fun d => exists cs, columns d = ColumnArray cs) dims /\
   exists e, folded = Throw e).
Proof.
  cbv zeta. revert acc. induction dims as [|d dims IH]; intros acc; cbn.
  - left. rewrite app_nil_r. auto.
  - destruct (columns d) as [c|cs] eqn:Hd; cbn.
    + right. split.
      * intros HF. inversion HF as [|? ? (cs & Hcs) _]; subst. congruence.
      * rewrite query_fold_Throw. eauto.
    + destruct (IH (acc ++ cs)) as [(HF & ->) | (HF & e & ->)].
      * left. split; [constructor; eauto|]. now rewrite <- app_assoc.
      * right. split; [|eauto]. intros HF'. now inversion HF'.
Qed.

(** X12: [getQueriesFromChartConfig] returns normally exactly when every
    dimension of every configuration holds an array of columns.  It then
    gives one query per configuration, in order, whose columns are those of
    the dimensions, dimension after dimension; a dimension holding anything
    but an array makes it throw. *)
Theorem getQueriesFromChartConfig_outcomes (chartConfig : list ChartConfig) :
  (Forall allArrays chartConfig /\
   getQueriesFromChartConfig chartConfig = Ok (map queryOf chartConfig))
  \/
  (~ Forall allArrays chartConfig /\
   exists e, getQueriesFromChartConfig chartConfig = Throw e).
Proof.
  unfold getQueriesFromChartConfig.
  induction chartConfig as [|config configs IH]; cbn.
  - left. auto.
  - destruct (query_fold (dimensions config) []) as [(HF & ->) | (HF & e & ->)].
    + destruct IH as [(HFs & ->) | (HFs & e & ->)].
      * left. split; [constructor; assumption|]. reflexivity.
      * right. split; [|eauto]. intros HF'. now inversion HF'.
    + right. split; [|eauto]. intros HF'. now inversion HF'.
Qed.

Lemma getQueriesFromChartConfig_default_config_witness :
  exists configs,
    result (getDefaultChartConfig Sample.twoMeasures initialGlobals) = Ok configs /\
    exists err, getQueriesFromChartConfig configs = Throw err.
Proof.
  eexists. split; [reflexivity|].
  apply (getQueriesFromChartConfig_default_config Sample.twoMeasures
           initialGlobals).
  reflexivity.
Defined.

(** X14: a chart model configured by what [getDefaultChartConfig] returned
    is never drawn: index [0] of the single column object stored in the
    category dimension is [undefined], so [getDataModel] sees no category
    column, returns no point, and [render] does not call the chart
    library. *)
Theorem default_config_never_mounts (cm0 cm : ChartModel) (g0 g : Globals)
    (configs : list ChartConfig) (hc : ChartOptions -> Result unit) :
  result (getDefaultChartConfig cm0 g0) = Ok configs ->
  cmConfig cm = Some {| chartConfig := Some configs |} ->
  dimensionColumn cm 0 = None /\
  (exists dm, result (getDataModel cm g) = Ok dm /\ values dm = []) /\
  chartCalls (effects (render hc (contextOf cm) g)) = [].
Proof.
  intros Hdef Hconf.
  assert (Hnone : dimensionColumn cm 0 = None).
  { unfold dimensionColumn. rewrite Hconf. cbn.
    revert Hdef. unfold getDefaultChartConfig. run_monad. cbn.
    destruct (filter isAttribute (cmColumns cm0)) as [|a attrs]; cbn;
      [discriminate|].
    destruct (filter isMeasure (cmColumns cm0)) as [|m ms]; cbn;
      [discriminate|].
    intros H. injection H as <-. reflexivity. }
  split; [assumption|].
  destruct (getDataModel_run cm g) as (dm & t & Hrun & _ & _ & Hv).
  assert (Hnil : values dm = []).
  { destruct Hv as [Hv | (cat & _ & _ & Hcat & _)]; congruence. }
  assert (Hdm : result (getDataModel cm g) = Ok dm) by now rewrite Hrun.
  split; [eauto|].
  destruct (render_mount hc cm g dm Hdm)
    as (_ & [((Hne & _) & _) | (_ & Hcalls)]); [congruence | assumption].
Qed.

Lemma default_config_never_mounts_witness :
  (exists configs,
     result (getDefaultChartConfig Sample.twoMeasures initialGlobals) = Ok configs /\
     cmConfig Sample2.defaultConfigured = Some {| chartConfig := Some configs |}) /\
  dimensionColumn Sample2.defaultConfigured 0 = None /\
  (exists dm,
     result (getDataModel Sample2.defaultConfigured initialGlobals) = Ok dm /\
     values dm = []) /\
  chartCalls
    (effects (render chartOk (contextOf Sample2.defaultConfigured) initialGlobals))
    = [].
Proof.
  split; [eexists; split; reflexivity|].
  eapply (default_config_never_mounts Sample.twoMeasures
            Sample2.defaultConfigured initialGlobals initialGlobals _ chartOk);
    reflexivity.
Defined.

Lemma getQueriesFromChartConfig_outcomes_witness :
  Forall allArrays [Sample2.arrayConfig] /\
  getQueriesFromChartConfig [Sample2.arrayConfig] =
    Ok [ {| queryColumns := [Sample.region; Sample.sales; Sample.profit] |} ].
Proof.
  destruct (getQueriesFromChartConfig_outcomes [Sample2.arrayConfig])
    as [(HF & Hq) | (_ & e & He)].
  - split; [exact HF | exact Hq].
  - discriminate He.
Defined.
